(** * webcake-data: query builder, model and connection

    A shallow embedding of [src/QueryBuilder.js], [src/DBModel.js] and
    [src/DBConnection.js], followed by the properties of the specification
    that were checked against it.

    Conventions of the embedding.
    - JavaScript values are the inductive [value].  Numbers are integers;
      the safe integers (magnitude below 2^53) are the numbers the model
      speaks for, and statements that depend on how a number is printed
      are restricted to them.
    - A plain object is the list of its own members in the order
      [Object.keys] gives them: array indices first, ascending, then the
      other names in the order they were created.  Reading a missing member
      gives [VUndefined]; inherited members are not modelled, and the
      statements keep to the values and names for which the code reads
      none.  Assigning to [__proto__] replaces the prototype and leaves the
      own members as they are.
    - [JSON.stringify] is a built-in of the runtime, not code of the
      repository: the text it produces is represented by the constructor
      [JSON_stringify] applied to the value that was encoded.
    - [async] functions run in the monad [M]: a state (the world behind
      [fetch] and the log of requests sent so far) and a completion that is
      either a normal value or a thrown exception. *)

From Stdlib Require Import ZArith NArith List String Ascii Bool Lia
  DecimalString.
Import ListNotations.
Open Scope string_scope.

(** ** Values and objects *)

Set Warnings "-register-all".

Inductive value : Type :=
| VUndefined
| VNull
| VBool (b : bool)
| VNum (n : Z)
| VStr (s : string)
| VArr (elems : list value)
| VObj (props : list (string * value)).

Definition obj : Type := list (string * value).

Section Assoc.
Context {A : Type}.

(** [o[k]] on the own properties of an object, [None] when absent. *)
Fixpoint assoc_get (k : string) (o : list (string * A)) : option A :=
  match o with
  | [] => None
  | (k', v) :: r => if String.eqb k k' then Some v else assoc_get k r
  end.

(** [o[k] = v]: replaces the value of an existing key where it stands,
    appends a new key at the end. *)
Fixpoint assoc_set (k : string) (v : A) (o : list (string * A))
  : list (string * A) :=
  match o with
  | [] => [(k, v)]
  | (k', v') :: r =>
      if String.eqb k k' then (k, v) :: r else (k', v') :: assoc_set k v r
  end.

Definition has_key (k : string) (o : list (string * A)) : bool :=
  match assoc_get k o with Some _ => true | None => false end.
End Assoc.

(** The array index a property name denotes, if any: the name is the
    decimal numeral, without sign or leading zero, of an integer from 0
    to 2^32 - 2. *)
Definition array_index (k : string) : option N :=
  match NilEmpty.uint_of_string k with
  | Some u =>
      let n := N.of_uint u in
      if String.eqb (NilZero.string_of_uint (N.to_uint n)) k
         && (n <=? 4294967294)%N
      then Some n
      else None
  | None => None
  end.

Section OwnMembers.
Context {A : Type}.

(** A new member whose name is the array index [n] takes its place among
    the indices: after the smaller ones, before everything else. *)
Fixpoint insert_index (n : N) (k : string) (v : A) (o : list (string * A))
  : list (string * A) :=
  match o with
  | [] => [(k, v)]
  | (k', v') :: r =>
      match array_index k' with
      | Some n' =>
          if (n' <? n)%N then (k', v') :: insert_index n k v r
          else (k, v) :: o
      | None => (k, v) :: o
      end
  end.

(** Defining the own member [k] of an ordinary object: an existing member
    keeps its place, a new array index is put among the indices, any
    other new name comes last. *)
Definition own_define (k : string) (v : A) (o : list (string * A))
  : list (string * A) :=
  match array_index k with
  | Some n => if has_key k o then assoc_set k v o else insert_index n k v o
  | None => assoc_set k v o
  end.

(** [o[k] = v] on an object made by [{}], for [v] an object.  An own
    member named [k] is given its new value where it stands.  Without
    one, the name [__proto__] reaches the accessor of [Object.prototype],
    which replaces the prototype and defines no own member (this holds as
    long as no object with an own member named [__proto__] has been made
    the prototype); any other name defines an own member. *)
Definition own_set (k : string) (v : A) (o : list (string * A))
  : list (string * A) :=
  if String.eqb k "__proto__" && negb (has_key k o) then o
  else own_define k v o.
End OwnMembers.

(** [k1] may stand before [k2] among the own keys of an object. *)
Definition before (k1 k2 : string) : bool :=
  match array_index k1, array_index k2 with
  | Some n1, Some n2 => (n1 <? n2)%N
  | Some _, None => true
  | None, Some _ => false
  | None, None => negb (String.eqb k1 k2)
  end.

(** The keys are distinct and in the order [Object.keys] lists them. *)
Fixpoint own_order (keys : list string) : bool :=
  match keys with
  | [] => true
  | k :: rest => forallb (before k) rest && own_order rest
  end.

(** Truthiness, as tested by [if (x)], [!x] and [x && y]. *)
Definition truthy (v : value) : bool :=
  match v with
  | VUndefined | VNull => false
  | VBool b => b
  | VNum n => negb (n =? 0)%Z
  | VStr s => negb (s =? "")
  | VArr _ | VObj _ => true
  end.

Definition nullish (v : value) : bool :=
  match v with
  | VUndefined | VNull => true
  | _ => false
  end.

(** [a || b] *)
Definition js_or (a b : value) : value := if truthy a then a else b.

(** A destructuring or parameter default: used when the value is undefined. *)
Definition default (v d : value) : value :=
  match v with VUndefined => d | _ => v end.

(** The canonical property key of an array index. *)
Definition index_key (i : nat) : string :=
  NilZero.string_of_uint (Nat.to_uint i).

Definition index_keys (n : nat) : list string := map index_key (seq 0 n).

(** [String(v)], which is also the property key a value denotes and what a
    template literal prints.  A number is printed as its decimal numeral,
    which is what the runtime prints for every safe integer. *)
Fixpoint ToString (v : value) : string :=
  match v with
  | VUndefined => "undefined"
  | VNull => "null"
  | VBool true => "true"
  | VBool false => "false"
  | VNum n => NilZero.string_of_int (Z.to_int n)
  | VStr s => s
  | VArr l =>
      (fix join (l : list value) : string :=
         match l with
         | [] => ""
         | x :: r =>
             let sx := if nullish x then "" else ToString x in
             match r with
             | [] => sx
             | _ :: _ => sx ++ "," ++ join r
             end
         end) l
  | VObj _ => "[object Object]"
  end.

Fixpoint elem_at_key (k : string) (i : nat) (l : list value) : option value :=
  match l with
  | [] => None
  | x :: r => if String.eqb k (index_key i) then Some x else elem_at_key k (S i) r
  end.

Fixpoint char_at_key (k : string) (i : nat) (s : string) : option value :=
  match s with
  | EmptyString => None
  | String c r =>
      if String.eqb k (index_key i) then Some (VStr (String c EmptyString))
      else char_at_key k (S i) r
  end.

Definition or_undefined (o : option value) : value :=
  match o with Some v => v | None => VUndefined end.

(** [v[k]] for a value that is neither null nor undefined. *)
Definition prop (v : value) (k : string) : value :=
  match v with
  | VObj o => or_undefined (assoc_get k o)
  | VArr l =>
      if String.eqb k "length" then VNum (Z.of_nat (List.length l))
      else or_undefined (elem_at_key k 0 l)
  | VStr s =>
      if String.eqb k "length" then VNum (Z.of_nat (String.length s))
      else or_undefined (char_at_key k 0 s)
  | _ => VUndefined
  end.

(** [Object.keys(v)] for a value that is neither null nor undefined. *)
Definition own_keys (v : value) : list string :=
  match v with
  | VObj o => map fst o
  | VArr l => index_keys (List.length l)
  | VStr s => index_keys (String.length s)
  | _ => []
  end.

(** ** Completions *)

Inductive exn : Type :=
| Error (message : value)   (* [new Error(message)] *)
| TypeError                 (* raised by the runtime, e.g. a member of null *)
| SyntaxError.              (* raised by the runtime, e.g. a malformed body *)

Inductive completion (A : Type) : Type :=
| Normal (a : A)
| Throw (e : exn).
Arguments Normal {A} a.
Arguments Throw {A} e.

Definition cbind {A B} (c : completion A) (k : A -> completion B)
  : completion B :=
  match c with
  | Normal a => k a
  | Throw e => Throw e
  end.

(** [v[k]] in general: a member of null or undefined is a TypeError. *)
Definition get_prop (v : value) (k : string) : completion value :=
  if nullish v then Throw TypeError else Normal (prop v k).

(** [Object.keys(v)] in general. *)
Definition Object_keys (v : value) : completion (list string) :=
  if nullish v then Throw TypeError else Normal (own_keys v).

(** ** The transport boundary *)

(** What reaches the wire: a text produced by [JSON.stringify], or a value
    handed over as it is. *)
Inductive wire : Type :=
| JSON_stringify (v : value)
| AsIs (v : value).

Definition params : Type := list (string * wire).

(** The arguments of one [fetch] call.  [search] is the object given to
    [new URLSearchParams], when the URL carries a query string. *)
Record Request : Type := mkRequest {
  method : string;
  url : string;
  search : option params;
  headers : obj;
  body : option wire
}.

(** What [fetch] resolves to; [json] is the completion of
    [response.json()]. *)
Record Response : Type := mkResponse {
  ok : bool;
  statusText : string;
  json : completion value
}.

Record State (World : Type) : Type := mkState {
  world : World;
  sent : list Request
}.
Arguments mkState {World} world sent.
Arguments world {World} s.
Arguments sent {World} s.

Definition M (World A : Type) : Type :=
  State World -> completion A * State World.

Definition ret {World A} (a : A) : M World A := fun s => (Normal a, s).

Definition throw {World A} (e : exn) : M World A := fun s => (Throw e, s).

Definition bind {World A B} (m : M World A) (k : A -> M World B)
  : M World B :=
  fun s =>
    match m s with
    | (Normal a, s') => k a s'
    | (Throw e, s') => (Throw e, s')
    end.

Definition lift {World A} (c : completion A) : M World A := fun s => (c, s).

Declare Scope js_scope.
Delimit Scope js_scope with js.
Notation "x <- m ;; k" := (bind m (fun x => k))
  (at level 61, m at next level, right associativity) : js_scope.

(** [await fetch(...)]: the world answers and the request is logged. *)
Definition do_fetch {World}
  (fetch : Request -> World -> completion Response * World)
  (r : Request) : M World Response :=
  fun s =>
    let (c, w) := fetch r (world s) in
    (c, mkState w (sent s ++ [r])).

(** ** DBConnection *)

(** The query description that [QueryBuilder.exec] hands to
    [DBConnection.query].  [filters] and [populate] are typed as the builder
    keeps them (an object, an array); the other parts hold whatever the
    caller gave to the builder. *)
Record QueryParams : Type := mkQueryParams {
  qp_filters : obj;
  qp_sort : value;
  qp_limit : value;
  qp_skip : value;
  qp_select : value;
  qp_populate : list value
}.

Module DBConnection.

Record t : Type := mk {
  baseURL : string;
  siteId : string;
  headers : obj
}.

(** [_buildQueryParams(queryParams)] *)
Definition _buildQueryParams (queryParams : QueryParams) : params :=
  let params : params := [] in
  let params :=
    if truthy (VObj (qp_filters queryParams))
       && (0 <? List.length (own_keys (VObj (qp_filters queryParams))))%nat
    then assoc_set "filters"
           (JSON_stringify (VObj (qp_filters queryParams))) params
    else params in
  let params :=
    if truthy (qp_sort queryParams)
       && (0 <? List.length (own_keys (qp_sort queryParams)))%nat
    then assoc_set "sort" (JSON_stringify (qp_sort queryParams)) params
    else params in
  let params :=
    if truthy (qp_limit queryParams)
    then assoc_set "limit" (AsIs (qp_limit queryParams)) params
    else params in
  let params :=
    if truthy (qp_skip queryParams)
    then assoc_set "skip" (AsIs (qp_skip queryParams)) params
    else params in
  let params :=
    if truthy (qp_select queryParams)
    then assoc_set "select" (JSON_stringify (qp_select queryParams)) params
    else params in
  let params :=
    if truthy (VArr (qp_populate queryParams))
       && (0 <? List.length (qp_populate queryParams))%nat
    then assoc_set "populate"
           (JSON_stringify (VArr (qp_populate queryParams))) params
    else params in
  params.

Section Transport.
Context {World : Type}.
Variable fetch : Request -> World -> completion Response * World.

Local Open Scope js_scope.

(** The closure every method builds: send, reject a response that is
    not [ok] with the method's own message, parse the body. *)
Definition fetchFn (request : Request) (failure : string)
  : M World value :=
  response <- do_fetch fetch request ;;
  if negb (ok response)
  then throw (Error (VStr (failure ++ statusText response)))
  else lift (json response).

(** [cleanFetch(fetchFn)]; the [catch] clause rethrows what it caught. *)
Definition cleanFetch (fetchFn : M World value) : M World value :=
  response <- fetchFn ;;
  success <- lift (get_prop response "success") ;;
  if negb (truthy success)
  then message <- lift (get_prop response "message") ;;
       throw (Error message)
  else lift (get_prop response "data").

Definition records (c : t) (tableName : string) : string :=
  baseURL c ++ "/collections/" ++ tableName ++ "/records".

Definition insertOne (c : t) (tableName : string) (fields : value)
  : M World value :=
  cleanFetch
    (fetchFn
       (mkRequest "POST" (records c tableName) None (headers c)
          (Some (JSON_stringify (VObj [("fields", fields)]))))
       "Failed to insert record: ").

Definition insertMany (c : t) (tableName : string) (records_ : value)
  : M World value :=
  cleanFetch
    (fetchFn
       (mkRequest "POST" (records c tableName ++ "/bulk") None (headers c)
          (Some (JSON_stringify (VObj [("records", records_)]))))
       "Failed to insert records: ").

Definition query (c : t) (tableName : string) (queryParams : QueryParams)
  : M World value :=
  cleanFetch
    (fetchFn
       (mkRequest "GET" (records c tableName)
          (Some (_buildQueryParams queryParams)) (headers c) None)
       "Failed to query records: ").

Definition updateById (c : t) (tableName : string) (id fields : value)
  : M World value :=
  cleanFetch
    (fetchFn
       (mkRequest "PATCH" (records c tableName ++ "/" ++ ToString id) None
          (headers c)
          (Some (JSON_stringify (VObj [("fields", fields)]))))
       "Failed to update record: ").

Definition updateOne (c : t) (tableName : string) (filters fields : value)
  : M World value :=
  cleanFetch
    (fetchFn
       (mkRequest "PATCH" (records c tableName ++ "/update") None
          (headers c)
          (Some (JSON_stringify
                   (VObj [("filters", filters); ("fields", fields);
                          ("limit", VNum 1)]))))
       "Failed to update record: ").

Definition updateMany (c : t) (tableName : string) (filters fields : value)
  : M World value :=
  cleanFetch
    (fetchFn
       (mkRequest "PATCH" (records c tableName ++ "/update") None
          (headers c)
          (Some (JSON_stringify
                   (VObj [("filters", filters); ("fields", fields)]))))
       "Failed to update records: ").

Definition deleteById (c : t) (tableName : string) (id : value)
  : M World value :=
  cleanFetch
    (fetchFn
       (mkRequest "DELETE" (records c tableName ++ "/" ++ ToString id) None
          (headers c) None)
       "Failed to delete record: ").

Definition deleteOne (c : t) (tableName : string) (filters : value)
  : M World value :=
  cleanFetch
    (fetchFn
       (mkRequest "DELETE" (records c tableName ++ "/delete") None
          (headers c)
          (Some (JSON_stringify
                   (VObj [("filters", filters); ("limit", VNum 1)]))))
       "Failed to delete record: ").

Definition deleteMany (c : t) (tableName : string) (filters : value)
  : M World value :=
  cleanFetch
    (fetchFn
       (mkRequest "DELETE" (records c tableName ++ "/delete") None
          (headers c)
          (Some (JSON_stringify (VObj [("filters", filters)]))))
       "Failed to delete records: ").

Definition count (c : t) (tableName : string) (filters : value)
  : M World value :=
  cleanFetch
    (fetchFn
       (mkRequest "GET" (records c tableName ++ "/count")
          (Some [("filters", JSON_stringify filters)]) (headers c) None)
       "Failed to count records: ").

Definition exists_ (c : t) (tableName : string) (filters : value)
  : M World value :=
  cleanFetch
    (fetchFn
       (mkRequest "GET" (records c tableName ++ "/exists")
          (Some [("filters", JSON_stringify filters)]) (headers c) None)
       "Failed to check if record exists: ").
End Transport.

(** The argument of the constructor, as [DBConnectionConfig] declares it;
    [None] is a member that is absent. *)
Record Config : Type := mkConfig {
  config_baseURL : option string;
  config_siteId : option string;
  config_token : option string;
  config_headers : option obj
}.

(** [a || b] for an optional string [a]: absent and empty both give [b]. *)
Definition or_string (a : option string) (b : string) : string :=
  match a with
  | Some s => if s =? "" then b else s
  | None => b
  end.

(** [_getSiteIdFromDOM()].  [document] is [None] where no document is
    defined, and otherwise holds what [getAttribute('x:id')] returns on the
    document element ([None] for null). *)
Definition _getSiteIdFromDOM (document : option (option string)) : string :=
  match document with
  | Some attribute => or_string attribute ""
  | None => ""
  end.

(** [{...o, ...source}]: the own properties of [source] are assigned in
    their order; spreading undefined adds nothing. *)
Definition spread (o : obj) (source : option obj) : obj :=
  match source with
  | Some members =>
      fold_left (fun acc member => own_define (fst member) (snd member) acc)
        members o
  | None => o
  end.

(** [new DBConnection(config = {})]; [None] is the omitted argument. *)
Definition constructor (document : option (option string))
  (config : option Config) : t :=
  let config :=
    match config with
    | Some config => config
    | None => mkConfig None None None None
    end in
  let siteId := or_string (config_siteId config) (_getSiteIdFromDOM document) in
  mk (or_string (config_baseURL config) ("/api/v1/" ++ siteId))
     siteId
     (spread
        [("Content-Type", VStr "application/json");
         ("Authorization",
          VStr (match config_token config with
                | Some token =>
                    if token =? "" then "" else "Bearer " ++ token
                | None => ""
                end))]
        (config_headers config)).

End DBConnection.

(** ** QueryBuilder *)

Module QueryBuilder.

Record t : Type := mk {
  collectionName : string;
  apiClient : DBConnection.t;
  filters : obj;
  sortOptions : value;
  limitValue : value;
  skipValue : value;
  selectFields : value;
  populateFields : list value
}.

(** [new QueryBuilder(collectionName, apiClient)] *)
Definition new (collectionName : string) (apiClient : DBConnection.t) : t :=
  mk collectionName apiClient [] (VObj []) VNull (VNum 0) VNull [].

(** [this.filters[field] = predicate] *)
Definition set_filter (q : t) (field : string) (predicate : value) : t :=
  mk (collectionName q) (apiClient q) (own_set field predicate (filters q))
     (sortOptions q) (limitValue q) (skipValue q) (selectFields q)
     (populateFields q).

(** [where(field, operator, value)].  [rest] holds the arguments that
    follow [field], so that [arguments.length] is [1 + length rest]. *)
Definition where_ (field : string) (rest : list value) (q : t) : t :=
  let operator := nth 0 rest VUndefined in
  let value := nth 1 rest VUndefined in
  if (1 + List.length rest =? 2)%nat
  then set_filter q field (VObj [("$eq", operator)])
  else set_filter q field (VObj [(ToString operator, value)]).

Definition eq (field : string) (value : value) (q : t) : t :=
  set_filter q field (VObj [("$eq", value)]).

Definition gt (field : string) (value : value) (q : t) : t :=
  set_filter q field (VObj [("$gt", value)]).

Definition gte (field : string) (value : value) (q : t) : t :=
  set_filter q field (VObj [("$gte", value)]).

Definition lt (field : string) (value : value) (q : t) : t :=
  set_filter q field (VObj [("$lt", value)]).

Definition lte (field : string) (value : value) (q : t) : t :=
  set_filter q field (VObj [("$lte", value)]).

Definition in_ (field : string) (values : value) (q : t) : t :=
  set_filter q field (VObj [("$in", values)]).

Definition nin (field : string) (values : value) (q : t) : t :=
  set_filter q field (VObj [("$nin", values)]).

Definition ne (field : string) (value : value) (q : t) : t :=
  set_filter q field (VObj [("$ne", value)]).

Definition between (field : string) (value1 value2 : value) (q : t) : t :=
  set_filter q field (VObj [("$between", VArr [value1; value2])]).

Definition like (field : string) (pattern : value) (q : t) : t :=
  set_filter q field (VObj [("$like", pattern)]).

Definition sort (sortObj : value) (q : t) : t :=
  mk (collectionName q) (apiClient q) (filters q) sortObj (limitValue q)
     (skipValue q) (selectFields q) (populateFields q).

Definition limit (n : value) (q : t) : t :=
  mk (collectionName q) (apiClient q) (filters q) (sortOptions q) n
     (skipValue q) (selectFields q) (populateFields q).

Definition skip (n : value) (q : t) : t :=
  mk (collectionName q) (apiClient q) (filters q) (sortOptions q)
     (limitValue q) n (selectFields q) (populateFields q).

Definition select (fields : value) (q : t) : t :=
  mk (collectionName q) (apiClient q) (filters q) (sortOptions q)
     (limitValue q) (skipValue q) fields (populateFields q).

(** [populate({field, table, referenceField, select = "", ...})].
    Destructuring the parameter raises a TypeError on null and undefined
    and reads the nine members otherwise; nothing else is checked.  The
    members are read as own members, which is what the code reads on a
    plain object; an array, whose [sort] is the method it inherits, is
    not a configuration this definition speaks for. *)
Definition populate (config : value) (q : t) : completion t :=
  if nullish config then Throw TypeError else
  let field := prop config "field" in
  let table := prop config "table" in
  let referenceField := prop config "referenceField" in
  let select := default (prop config "select") (VStr "") in
  let where_ := default (prop config "where") (VStr "") in
  let sort := default (prop config "sort") (VStr "") in
  let limit := default (prop config "limit") VNull in
  let skip := default (prop config "skip") (VNum 0) in
  let justOne := default (prop config "justOne") (VBool false) in
  Normal
    (mk (collectionName q) (apiClient q) (filters q) (sortOptions q)
        (limitValue q) (skipValue q) (selectFields q)
        (populateFields q ++
           [VObj [("field", field); ("table", table);
                  ("referenceField", referenceField); ("select", select);
                  ("where", where_); ("sort", sort); ("limit", limit);
                  ("skip", skip); ("justOne", justOne)]])).

(** The object [exec] builds from the builder before it calls the
    connection. *)
Definition queryParams (q : t) : QueryParams :=
  mkQueryParams (filters q) (sortOptions q) (limitValue q) (skipValue q)
    (selectFields q) (populateFields q).

Section Transport.
Context {World : Type}.
Variable fetch : Request -> World -> completion Response * World.

Definition exec (q : t) : M World value :=
  DBConnection.query fetch (apiClient q) (collectionName q)
    (queryParams q).

(** [then(resolve, reject)], that is [this.exec().then(resolve, reject)].
    A handler continues the computation with what it is given; [None] is a
    handler that is not a function, which passes the outcome on. *)
Definition then_ (resolve : option (value -> M World value))
  (reject : option (exn -> M World value)) (q : t) : M World value :=
  fun s =>
    match exec q s with
    | (Normal results, s') =>
        match resolve with
        | Some handler => handler results s'
        | None => (Normal results, s')
        end
    | (Throw error, s') =>
        match reject with
        | Some handler => handler error s'
        | None => (Throw error, s')
        end
    end.
End Transport.

End QueryBuilder.

(** What a builder puts on the wire when it is executed: the search
    parameters of the request [exec] sends. *)
Definition serialize (q : QueryBuilder.t) : params :=
  DBConnection._buildQueryParams (QueryBuilder.queryParams q).

(** ** DBModel *)

Module DBModel.

Record t : Type := mk {
  collectionName : string;
  apiClient : DBConnection.t
}.

(** [_prepareFields(data)] *)
Definition _prepareFields (data : value) : completion value :=
  cbind (Object_keys data) (fun keys =>
    Normal
      (VArr
         (map (fun key =>
                 VObj [("field_name", VStr key);
                       ("field_value", prop data key)])
              keys))).

(** [find(filters = {})] *)
Definition find (filters : value) (m : t) : completion QueryBuilder.t :=
  let filters := default filters (VObj []) in
  let query := QueryBuilder.new (collectionName m) (apiClient m) in
  cbind (Object_keys filters) (fun keys =>
    Normal
      (fold_left
         (fun query key => QueryBuilder.where_ key [prop filters key] query)
         keys query)).

Section Transport.
Context {World : Type}.
Variable fetch : Request -> World -> completion Response * World.

Local Open Scope js_scope.

Definition create (data : value) (m : t) : M World value :=
  fields <- lift (_prepareFields data) ;;
  DBConnection.insertOne fetch (apiClient m) (collectionName m) fields.

(** [dataArray.map(data => this._prepareFields(data))] for an array. *)
Fixpoint prepare_all (dataArray : list value) : completion (list value) :=
  match dataArray with
  | [] => Normal []
  | data :: r =>
      cbind (_prepareFields data) (fun fields =>
        cbind (prepare_all r) (fun rest => Normal (fields :: rest)))
  end.

Definition insertMany (dataArray : list value) (m : t) : M World value :=
  records <- lift (prepare_all dataArray) ;;
  DBConnection.insertMany fetch (apiClient m) (collectionName m)
    (VArr records).

Definition findOne (filters : value) (m : t) : M World value :=
  query <- lift (find filters m) ;;
  let query := QueryBuilder.limit (VNum 1) query in
  results <- QueryBuilder.exec fetch query ;;
  first <- lift (get_prop results "0") ;;
  ret (js_or first VNull).

Definition findById (id : value) (m : t) : M World value :=
  findOne (VObj [("id", id)]) m.

Definition updateOne (filters updateData : value) (m : t)
  : M World value :=
  fields <- lift (_prepareFields updateData) ;;
  res <- DBConnection.updateOne fetch (apiClient m) (collectionName m)
           filters fields ;;
  matchedCount <- lift (get_prop res "length") ;;
  modifiedCount <- lift (get_prop res "length") ;;
  ret (VObj [("acknowledged", VBool true);
             ("matchedCount", matchedCount);
             ("modifiedCount", modifiedCount)]).

(** [findByIdAndUpdate(id, updateData, options = {})] *)
Definition findByIdAndUpdate (id updateData options : value) (m : t)
  : M World value :=
  let options := default options (VObj []) in
  fields <- lift (_prepareFields updateData) ;;
  result <- DBConnection.updateById fetch (apiClient m) (collectionName m)
              id fields ;;
  new <- lift (get_prop options "new") ;;
  if truthy new then findById id m else ret result.

Definition findOneAndUpdate (filters updateData : value) (m : t)
  : M World value :=
  fields <- lift (_prepareFields updateData) ;;
  DBConnection.updateOne fetch (apiClient m) (collectionName m)
    filters fields.

Definition updateMany (filters updateData : value) (m : t)
  : M World value :=
  fields <- lift (_prepareFields updateData) ;;
  res <- DBConnection.updateMany fetch (apiClient m) (collectionName m)
           filters fields ;;
  matchedCount <- lift (get_prop res "length") ;;
  modifiedCount <- lift (get_prop res "length") ;;
  ret (VObj [("acknowledged", VBool true);
             ("matchedCount", matchedCount);
             ("modifiedCount", modifiedCount)]).

Definition deleteOne (filters : value) (m : t) : M World value :=
  res <- DBConnection.deleteOne fetch (apiClient m) (collectionName m)
           filters ;;
  deletedCount <- lift (get_prop res "length") ;;
  ret (VObj [("acknowledged", VBool true);
             ("deletedCount", deletedCount)]).

Definition findByIdAndDelete (id : value) (m : t) : M World value :=
  DBConnection.deleteById fetch (apiClient m) (collectionName m) id.

Definition findOneAndDelete (filters : value) (m : t) : M World value :=
  DBConnection.deleteOne fetch (apiClient m) (collectionName m) filters.

Definition deleteMany (filters : value) (m : t) : M World value :=
  res <- DBConnection.deleteMany fetch (apiClient m) (collectionName m)
           filters ;;
  deletedCount <- lift (get_prop res "length") ;;
  ret (VObj [("acknowledged", VBool true);
             ("deletedCount", deletedCount)]).

(** [countDocuments(filters = {})] *)
Definition countDocuments (filters : value) (m : t) : M World value :=
  let filters := default filters (VObj []) in
  res <- DBConnection.count fetch (apiClient m) (collectionName m)
           filters ;;
  lift (get_prop res "count").

Definition exists_ (filters : value) (m : t) : M World value :=
  res <- DBConnection.exists_ fetch (apiClient m) (collectionName m)
           filters ;;
  lift (get_prop res "exists").
End Transport.

End DBModel.

(** ** Calls and fixtures used by the statements *)

(** One call of a predicate-setting operation of the builder, without its
    field argument. *)
Inductive setter : Type :=
| Call_where (rest : list value)
| Call_eq (v : value)
| Call_gt (v : value)
| Call_gte (v : value)
| Call_lt (v : value)
| Call_lte (v : value)
| Call_in (vs : value)
| Call_nin (vs : value)
| Call_ne (v : value)
| Call_between (v1 v2 : value)
| Call_like (pattern : value).

Definition apply_setter (field : string) (c : setter) (q : QueryBuilder.t)
  : QueryBuilder.t :=
  match c with
  | Call_where rest => QueryBuilder.where_ field rest q
  | Call_eq v => QueryBuilder.eq field v q
  | Call_gt v => QueryBuilder.gt field v q
  | Call_gte v => QueryBuilder.gte field v q
  | Call_lt v => QueryBuilder.lt field v q
  | Call_lte v => QueryBuilder.lte field v q
  | Call_in vs => QueryBuilder.in_ field vs q
  | Call_nin vs => QueryBuilder.nin field vs q
  | Call_ne v => QueryBuilder.ne field v q
  | Call_between v1 v2 => QueryBuilder.between field v1 v2 q
  | Call_like p => QueryBuilder.like field p q
  end.


(** A required member of a populate configuration is missing when reading
    it gives undefined. *)
Definition missing (config : value) (k : string) : bool :=
  match prop config k with VUndefined => true | _ => false end.

Definition omits_required (config : value) : bool :=
  missing config "field" || missing config "table"
  || missing config "referenceField".

(** The response envelope [{success, data, message}]. *)
Definition envelope (success : bool) (data : value) (message : string)
  : value :=
  VObj [("success", VBool success); ("data", data);
        ("message", VStr message)].

(** What unwrapping an envelope must give. *)
Definition unwrapped (success : bool) (data : value) (message : string)
  : completion value :=
  if success then Normal data else Throw (Error (VStr message)).

(** The transport answers every request with an [ok] response whose parsed
    body is [e]. *)
Definition answers_with {World : Type}
  (fetch : Request -> World -> completion Response * World) (e : value)
  : Prop :=
  forall r w, exists st w',
    fetch r w = (Normal (mkResponse true st (Normal e)), w').

(** Running [op] from [s] sends exactly one request, and its body is the
    JSON text of the object [o]. *)
Definition sends_body {World : Type} (op : M World value) (s : State World)
  (o : obj) : Prop :=
  exists r,
    sent (snd (op s)) = (sent s ++ [r])%list
    /\ body r = Some (JSON_stringify (VObj o)).

(** One optional entry of the search parameters. *)
Definition entry (present : bool) (k : string) (w : wire) : params :=
  if present then [(k, w)] else [].

(** [DBConnection.model(collectionName)] *)
Definition model (c : DBConnection.t) (collectionName : string) : DBModel.t :=
  DBModel.mk collectionName c.

(** The transport answers every request with a response that is not [ok]
    and has the status text [st]. *)
Definition refuses_with {World : Type}
  (fetch : Request -> World -> completion Response * World) (st : string)
  : Prop :=
  forall r w, exists parsed w',
    fetch r w = (Normal (mkResponse false st parsed), w').

(** Every exchange breaks with [e]: [fetch] itself rejects with it, or the
    response is [ok] and parsing its body rejects with it. *)
Definition breaks_with {World : Type}
  (fetch : Request -> World -> completion Response * World) (e : exn)
  : Prop :=
  forall r w,
    (exists w', fetch r w = (Throw e, w'))
    \/ (exists st w', fetch r w = (Normal (mkResponse true st (Throw e)), w')).

(** Running [op] from [s] sends the requests [rs], in this order. *)
Definition sends {World : Type} (op : M World value) (s : State World)
  (rs : list Request) : Prop :=
  sent (snd (op s)) = (sent s ++ rs)%list.

(** [q.populate(c1).populate(c2)...]: the calls of a chain, each on the
    builder the call before it returned. *)
Fixpoint populate_each (configs : list value) (q : QueryBuilder.t)
  : completion QueryBuilder.t :=
  match configs with
  | [] => Normal q
  | config :: rest =>
      cbind (QueryBuilder.populate config q) (populate_each rest)
  end.

(** The equality predicate [find] and the two-argument [where] set. *)
Definition equals (v : value) : value := VObj [("$eq", v)].

(** One element of what [_prepareFields] returns. *)
Definition field_pair (member : string * value) : value :=
  VObj [("field_name", VStr (fst member)); ("field_value", snd member)].

(** Whatever the state it starts from, [op] sends at most [n] requests
    and removes none from the log. *)
Definition at_most {World A : Type} (n : nat) (op : M World A) : Prop :=
  forall s, exists rs,
    sent (snd (op s)) = (sent s ++ rs)%list /\ (List.length rs <= n)%nat.

(** What [cleanFetch] makes of a parsed body. *)
Definition settled (parsed : value) : completion value :=
  if nullish parsed then Throw TypeError
  else if truthy (prop parsed "success") then Normal (prop parsed "data")
  else Throw (Error (prop parsed "message")).

(** The filters [find] records for the filter object [fs]: its members
    as equalities; a member named [__proto__] is not recorded. *)
Definition recorded (fs : obj) : obj :=
  map (fun member => (fst member, equals (snd member)))
    (filter (fun member => negb (String.eqb (fst member) "__proto__")) fs).

(** The request [findOne] sends for the filter object [fs]. *)
Definition one_record_request (m : DBModel.t) (fs : obj) : Request :=
  mkRequest "GET"
    (DBConnection.baseURL (DBModel.apiClient m) ++ "/collections/"
     ++ DBModel.collectionName m ++ "/records")
    (Some
       match recorded fs with
       | [] => [("limit", AsIs (VNum 1))]
       | _ :: _ =>
           [("filters", JSON_stringify (VObj (recorded fs)));
            ("limit", AsIs (VNum 1))]
       end)
    (DBConnection.headers (DBModel.apiClient m)) None.

(** An identifier as the operations by identifier are declared to take it
    (a string), or a safe integer. *)
Definition plain_id (id : value) : bool :=
  match id with
  | VStr _ => true
  | VNum n => (Z.abs n <? 2 ^ 53)%Z
  | _ => false
  end.

(** The directive [populate] appends for a configuration: the one it adds
    to a builder that has none. *)
Definition directive (config : value) : value :=
  match
    QueryBuilder.populate config
      (QueryBuilder.new "" (DBConnection.mk "" "" []))
  with
  | Normal q => last (QueryBuilder.populateFields q) VUndefined
  | Throw _ => VUndefined
  end.

(** The keys of an object literal are pairwise distinct. *)
Fixpoint distinct (keys : list string) : bool :=
  match keys with
  | [] => true
  | k :: rest => negb (existsb (String.eqb k) rest) && distinct rest
  end.

Module Fixture.

Definition conn : DBConnection.t :=
  DBConnection.mk "/api/v1/site-1" "site-1"
    [("Content-Type", VStr "application/json"); ("Authorization", VStr "")].

Definition users : DBModel.t := DBModel.mk "users" conn.

Definition fresh : QueryBuilder.t := QueryBuilder.new "users" conn.

(** [find().gte('age',25).lte('age',40).sort({age:-1}).limit(5).skip(10)] *)
Definition scenario_B : QueryBuilder.t :=
  QueryBuilder.skip (VNum 10)
    (QueryBuilder.limit (VNum 5)
       (QueryBuilder.sort (VObj [("age", VNum (-1))])
          (QueryBuilder.lte "age" (VNum 40)
             (QueryBuilder.gte "age" (VNum 25) fresh)))).

(** A populate configuration without [field]. *)
Definition no_field : value :=
  VObj [("table", VStr "posts"); ("referenceField", VStr "user_id")].

(** A transport that answers every request with the same response. *)
Definition canned (r : Response)
  : Request -> unit -> completion Response * unit :=
  fun _ w => (Normal r, w).

Definition answer (body : value) : Response :=
  mkResponse true "OK" (Normal body).

Definition start : State unit := mkState tt [].

End Fixture.

(** * Properties *)

(** ** Objects *)

Section AssocFacts.
Context {A : Type}.
Implicit Types (k : string) (v : A) (o : list (string * A)).

Lemma assoc_get_set_same k v o : assoc_get k (assoc_set k v o) = Some v.
Proof.
  induction o as [|[k' v'] r IH]; simpl.
  - now rewrite String.eqb_refl.
  - destruct (String.eqb k k') eqn:E; simpl.
    + now rewrite String.eqb_refl.
    + now rewrite E.
Qed.

Lemma assoc_get_set_other k k' v o :
  k <> k' -> assoc_get k (assoc_set k' v o) = assoc_get k o.
Proof.
  intros Hne. induction o as [|[k0 v0] r IH]; simpl.
  - destruct (String.eqb_spec k k'); [contradiction | reflexivity].
  - destruct (String.eqb_spec k' k0) as [->|Hk]; simpl.
    + destruct (String.eqb_spec k k0); [contradiction | reflexivity].
    + destruct (String.eqb k k0); [reflexivity | exact IH].
Qed.


Lemma assoc_set_length k v o :
  (List.length o <= List.length (assoc_set k v o))%nat.
Proof.
  induction o as [|[k' v'] r IH]; simpl; [lia|].
  destruct (String.eqb k k'); simpl; lia.
Qed.
End AssocFacts.

(** ** Own members *)

Section OwnFacts.
Context {A : Type}.
Implicit Types (k : string) (v : A) (o : list (string * A)).

Lemma assoc_get_assoc_set k k' v o :
  assoc_get k (assoc_set k' v o)
  = if String.eqb k k' then Some v else assoc_get k o.
Proof.
  destruct (String.eqb_spec k k') as [->|Hne].
  - apply assoc_get_set_same.
  - now apply assoc_get_set_other.
Qed.

Lemma has_key_cons_false k k' v' o :
  has_key k ((k', v') :: o) = false ->
  String.eqb k k' = false /\ has_key k o = false.
Proof.
  unfold has_key. cbn [assoc_get].
  destruct (String.eqb k k'); [discriminate|]. now split.
Qed.

Lemma insert_index_get (n : N) k k' v o :
  has_key k o = false ->
  assoc_get k' (insert_index n k v o)
  = if String.eqb k' k then Some v else assoc_get k' o.
Proof.
  induction o as [|[k0 v0] r IH]; intros Hk; cbn [insert_index].
  - reflexivity.
  - apply has_key_cons_false in Hk as [Hne Hr].
    destruct (array_index k0) as [n0|]; [|reflexivity].
    destruct (n0 <? n)%N; [|reflexivity].
    cbn [assoc_get]. rewrite (IH Hr).
    destruct (String.eqb_spec k' k0) as [->|_]; [|reflexivity].
    rewrite String.eqb_sym in Hne. now rewrite Hne.
Qed.

Lemma own_define_get k k' v o :
  assoc_get k' (own_define k v o)
  = if String.eqb k' k then Some v else assoc_get k' o.
Proof.
  unfold own_define. destruct (array_index k) as [n|].
  - destruct (has_key k o) eqn:E.
    + apply assoc_get_assoc_set.
    + now apply insert_index_get.
  - apply assoc_get_assoc_set.
Qed.

Lemma own_set_get k k' v o :
  String.eqb k "__proto__" = false ->
  assoc_get k' (own_set k v o)
  = if String.eqb k' k then Some v else assoc_get k' o.
Proof. intros H. unfold own_set. rewrite H. apply own_define_get. Qed.




End OwnFacts.

(** ** Serialization *)

(** [_buildQueryParams] lists the parts that are set, in a fixed order. *)
Lemma _buildQueryParams_entries (qp : QueryParams) :
  DBConnection._buildQueryParams qp =
   (entry (0 <? List.length (qp_filters qp))%nat "filters"
      (JSON_stringify (VObj (qp_filters qp)))
    ++ entry (truthy (qp_sort qp)
              && (0 <? List.length (own_keys (qp_sort qp)))%nat) "sort"
         (JSON_stringify (qp_sort qp))
    ++ entry (truthy (qp_limit qp)) "limit" (AsIs (qp_limit qp))
    ++ entry (truthy (qp_skip qp)) "skip" (AsIs (qp_skip qp))
    ++ entry (truthy (qp_select qp)) "select" (JSON_stringify (qp_select qp))
    ++ entry (0 <? List.length (qp_populate qp))%nat "populate"
         (JSON_stringify (VArr (qp_populate qp))))%list.
Proof.
  unfold DBConnection._buildQueryParams.
  cbn [own_keys truthy andb]. rewrite length_map.
  destruct (0 <? List.length (qp_filters qp))%nat;
    destruct (truthy (qp_sort qp)
              && (0 <? List.length (own_keys (qp_sort qp)))%nat);
    destruct (truthy (qp_limit qp)); destruct (truthy (qp_skip qp));
    destruct (truthy (qp_select qp));
    destruct (0 <? List.length (qp_populate qp))%nat; reflexivity.
Qed.

Lemma serialize_entries (q : QueryBuilder.t) :
  serialize q =
   (entry (0 <? List.length (QueryBuilder.filters q))%nat "filters"
      (JSON_stringify (VObj (QueryBuilder.filters q)))
    ++ entry (truthy (QueryBuilder.sortOptions q)
              && (0 <? List.length (own_keys (QueryBuilder.sortOptions q)))%nat)
         "sort" (JSON_stringify (QueryBuilder.sortOptions q))
    ++ entry (truthy (QueryBuilder.limitValue q)) "limit"
         (AsIs (QueryBuilder.limitValue q))
    ++ entry (truthy (QueryBuilder.skipValue q)) "skip"
         (AsIs (QueryBuilder.skipValue q))
    ++ entry (truthy (QueryBuilder.selectFields q)) "select"
         (JSON_stringify (QueryBuilder.selectFields q))
    ++ entry (0 <? List.length (QueryBuilder.populateFields q))%nat "populate"
         (JSON_stringify (VArr (QueryBuilder.populateFields q))))%list.
Proof. unfold serialize. now rewrite _buildQueryParams_entries. Qed.

Ltac split_entries :=
  repeat match goal with
         | |- context [entry ?c _ _] =>
             let E := fresh "E" in destruct c eqn:E; cbn [entry app]
         end.


Lemma serialize_has_skip (q : QueryBuilder.t) :
  has_key "skip" (serialize q) = truthy (QueryBuilder.skipValue q).
Proof.
  rewrite serialize_entries. unfold has_key.
  split_entries; reflexivity.
Qed.

Lemma serialize_has_limit (q : QueryBuilder.t) :
  has_key "limit" (serialize q) = truthy (QueryBuilder.limitValue q).
Proof.
  rewrite serialize_entries. unfold has_key.
  split_entries; reflexivity.
Qed.

Lemma serialize_get_skip (q : QueryBuilder.t) :
  truthy (QueryBuilder.skipValue q) = true ->
  assoc_get "skip" (serialize q) = Some (AsIs (QueryBuilder.skipValue q)).
Proof.
  intros H. rewrite serialize_entries, H.
  split_entries; reflexivity.
Qed.

Lemma serialize_get_limit (q : QueryBuilder.t) :
  truthy (QueryBuilder.limitValue q) = true ->
  assoc_get "limit" (serialize q) = Some (AsIs (QueryBuilder.limitValue q)).
Proof.
  intros H. rewrite serialize_entries, H.
  split_entries; reflexivity.
Qed.

(** ** QueryBuilder: predicates *)

(** Every predicate-setting call assigns one object to its field, whatever
    the builder held before. *)
Lemma setter_assigns (f : string) (c : setter) :
  exists p, forall q, apply_setter f c q = QueryBuilder.set_filter q f p.
Proof.
  destruct c; cbn [apply_setter];
    try (eexists; intros q; reflexivity).
  unfold QueryBuilder.where_.
  destruct (1 + List.length rest =? 2)%nat; eexists; intros q; reflexivity.
Qed.

Lemma filters_set_filter (q : QueryBuilder.t) (f : string) (p : value) :
  QueryBuilder.filters (QueryBuilder.set_filter q f p)
  = own_set f p (QueryBuilder.filters q).
Proof. reflexivity. Qed.





(** C4. The two-argument [where], the three-argument [where] with the
    equality tag [$eq], and the shorthand [eq] build the same query; for
    field [age] and value 25 the serialized filters are
    [{age: {$eq: 25}}]. *)
Theorem C4_where_arity_agrees_with_eq :
  (forall (field : string) (v : value) (q : QueryBuilder.t),
      QueryBuilder.where_ field [v] q = QueryBuilder.eq field v q
      /\ QueryBuilder.where_ field [VStr "$eq"; v] q
         = QueryBuilder.eq field v q
      /\ (field <> "__proto__" ->
          assoc_get field
            (QueryBuilder.filters (QueryBuilder.eq field v q))
          = Some (VObj [("$eq", v)])))
  /\ serialize (QueryBuilder.where_ "age" [VNum 25] Fixture.fresh)
     = [("filters", JSON_stringify (VObj [("age", VObj [("$eq", VNum 25)])]))]
  /\ serialize
       (QueryBuilder.where_ "age" [VStr "$eq"; VNum 25] Fixture.fresh)
     = [("filters", JSON_stringify (VObj [("age", VObj [("$eq", VNum 25)])]))]
  /\ serialize (QueryBuilder.eq "age" (VNum 25) Fixture.fresh)
     = [("filters", JSON_stringify (VObj [("age", VObj [("$eq", VNum 25)])]))].
Proof.
  split; [|repeat split; reflexivity].
  intros field v q. split; [reflexivity|]. split; [reflexivity|].
  intros Hf. apply String.eqb_neq in Hf.
  unfold QueryBuilder.eq. rewrite filters_set_filter.
  now rewrite own_set_get, String.eqb_refl.
Qed.

Lemma C4_where_arity_agrees_with_eq_witness :
  assoc_get "age"
    (QueryBuilder.filters
       (QueryBuilder.eq "age" (VNum 25) Fixture.scenario_B))
  = Some (VObj [("$eq", VNum 25)]).
Proof.
  refine (proj2 (proj2
    (proj1 C4_where_arity_agrees_with_eq "age" (VNum 25)
       Fixture.scenario_B)) _).
  discriminate.
Defined.

(** The tag given to the three-argument [where] is used as it is written:
    a tag without the [$] prefix names another member than [eq] sets. *)
Remark where_keeps_the_tag_as_written (field tag : string) (v : value)
  (q : QueryBuilder.t) :
  field <> "__proto__" ->
  assoc_get field
    (QueryBuilder.filters (QueryBuilder.where_ field [VStr tag; v] q))
  = Some (VObj [(tag, v)]).
Proof.
  intros Hf. apply String.eqb_neq in Hf.
  unfold QueryBuilder.where_. cbn [List.length Nat.add Nat.eqb nth ToString].
  rewrite filters_set_filter. now rewrite own_set_get, String.eqb_refl.
Qed.

(** C2, evaluated.  The chain of scenario B serializes with the filters
    [{age: {$lte: 40}}]: the predicate under [age] has no [$gte] member,
    the later [lte] call having replaced the object [gte] had assigned.
    Sort, limit and skip are as the scenario gives them. *)
Theorem C2_scenario_B_keeps_only_lte :
  DBModel.find VUndefined Fixture.users = Normal Fixture.fresh
  /\ serialize Fixture.scenario_B
     = [("filters", JSON_stringify (VObj [("age", VObj [("$lte", VNum 40)])]));
        ("sort", JSON_stringify (VObj [("age", VNum (-1))]));
        ("limit", AsIs (VNum 5));
        ("skip", AsIs (VNum 10))]
  /\ prop (or_undefined
             (assoc_get "age" (QueryBuilder.filters Fixture.scenario_B)))
       "$gte" = VUndefined
  /\ prop (or_undefined
             (assoc_get "age" (QueryBuilder.filters Fixture.scenario_B)))
       "$lte" = VNum 40.
Proof. repeat split; reflexivity. Qed.

(** ** QueryBuilder: populate *)

(** C1, counterexample.  The configuration [{table, referenceField}] omits
    [field]; the call does not fail, and the populate list of the builder it
    returns holds one more directive than before. *)
Lemma C1_populate_without_field_is_accepted :
  omits_required Fixture.no_field = true
  /\ QueryBuilder.populate Fixture.no_field Fixture.fresh
     = Normal
         (QueryBuilder.mk "users" Fixture.conn [] (VObj []) VNull (VNum 0)
            VNull
            [VObj [("field", VUndefined); ("table", VStr "posts");
                   ("referenceField", VStr "user_id"); ("select", VStr "");
                   ("where", VStr ""); ("sort", VStr ""); ("limit", VNull);
                   ("skip", VNum 0); ("justOne", VBool false)]])
  /\ QueryBuilder.populateFields Fixture.fresh = [].
Proof. repeat split; reflexivity. Qed.

(** The only configurations [populate] refuses are null and undefined,
    which cannot be destructured. *)
Remark populate_raises_on_nullish (config : value) (q : QueryBuilder.t) :
  nullish config = true -> QueryBuilder.populate config q = Throw TypeError.
Proof. unfold QueryBuilder.populate. now intros ->. Qed.

(** C1, amended.  [populate] checks no member of its configuration: for
    every configuration object, with or without [field], [table] and
    [referenceField], the call succeeds and appends one directive at the end
    of the populate list; the list grows by exactly one, the directives
    accumulated before keep their places, the directive records the three
    members as the configuration reads (undefined when absent), and no other
    part of the builder changes. *)
Theorem C1_populate_always_appends (o : obj) (q : QueryBuilder.t) :
  exists q' directive,
    QueryBuilder.populate (VObj o) q = Normal q'
    /\ QueryBuilder.populateFields q'
       = (QueryBuilder.populateFields q ++ [directive])%list
    /\ List.length (QueryBuilder.populateFields q')
       = S (List.length (QueryBuilder.populateFields q))
    /\ prop directive "field" = prop (VObj o) "field"
    /\ prop directive "table" = prop (VObj o) "table"
    /\ prop directive "referenceField" = prop (VObj o) "referenceField"
    /\ QueryBuilder.filters q' = QueryBuilder.filters q
    /\ QueryBuilder.sortOptions q' = QueryBuilder.sortOptions q
    /\ QueryBuilder.limitValue q' = QueryBuilder.limitValue q
    /\ QueryBuilder.skipValue q' = QueryBuilder.skipValue q
    /\ QueryBuilder.selectFields q' = QueryBuilder.selectFields q.
Proof.
  unfold QueryBuilder.populate. cbn [nullish].
  eexists. eexists. split; [reflexivity|].
  cbn [QueryBuilder.populateFields QueryBuilder.filters
       QueryBuilder.sortOptions QueryBuilder.limitValue
       QueryBuilder.skipValue QueryBuilder.selectFields].
  repeat split.
  rewrite length_app. cbn [List.length]. lia.
Qed.

(** ** QueryBuilder: elision *)

(** C6. A builder on which nothing was applied, as the constructor makes it
    and as [find()] returns it, serializes to a description without any
    key: none of filters, sort, limit, skip, select, populate. *)
Theorem C6_fresh_builder_serializes_to_nothing
  (collection : string) (client : DBConnection.t) :
  serialize (QueryBuilder.new collection client) = []
  /\ (forall k, has_key k (serialize (QueryBuilder.new collection client))
                = false)
  /\ DBModel.find VUndefined (DBModel.mk collection client)
     = Normal (QueryBuilder.new collection client)
  /\ DBModel.find (VObj []) (DBModel.mk collection client)
     = Normal (QueryBuilder.new collection client).
Proof. repeat split. Qed.

(** C10. The serialized description has a [skip] key only when the skip
    value is not zero, and a [limit] key only when the limit value is
    neither zero nor null; [skip(0)] and [limit(0)] leave no key, the latter
    serializing exactly as an absent (null) limit, while a non-zero integer
    is sent as it is. *)
Theorem C10_zero_pagination_is_elided (q : QueryBuilder.t) :
  (has_key "skip" (serialize q) = true -> QueryBuilder.skipValue q <> VNum 0)
  /\ (has_key "limit" (serialize q) = true ->
      QueryBuilder.limitValue q <> VNum 0
      /\ QueryBuilder.limitValue q <> VNull)
  /\ has_key "skip" (serialize (QueryBuilder.skip (VNum 0) q)) = false
  /\ has_key "limit" (serialize (QueryBuilder.limit (VNum 0) q)) = false
  /\ serialize (QueryBuilder.limit (VNum 0) q)
     = serialize (QueryBuilder.limit VNull q)
  /\ (forall n : Z, n <> 0%Z ->
        assoc_get "skip" (serialize (QueryBuilder.skip (VNum n) q))
        = Some (AsIs (VNum n))
        /\ assoc_get "limit" (serialize (QueryBuilder.limit (VNum n) q))
           = Some (AsIs (VNum n))).
Proof.
  rewrite !serialize_has_skip, !serialize_has_limit. repeat split.
  - intros H E. rewrite E in H. discriminate.
  - intros E. rewrite E in H. discriminate.
  - intros E. rewrite E in H. discriminate.
  - apply serialize_get_skip. cbn. now apply negb_true_iff, Z.eqb_neq.
  - apply serialize_get_limit. cbn. now apply negb_true_iff, Z.eqb_neq.
Qed.

Lemma C10_zero_pagination_is_elided_witness :
  has_key "skip" (serialize Fixture.scenario_B) = true
  /\ has_key "limit" (serialize Fixture.scenario_B) = true
  /\ QueryBuilder.skipValue Fixture.scenario_B <> VNum 0
  /\ QueryBuilder.limitValue Fixture.scenario_B <> VNum 0
  /\ QueryBuilder.limitValue Fixture.scenario_B <> VNull
  /\ assoc_get "skip" (serialize (QueryBuilder.skip (VNum 10) Fixture.fresh))
     = Some (AsIs (VNum 10)).
Proof.
  pose proof (C10_zero_pagination_is_elided Fixture.scenario_B)
    as (Hskip & Hlimit & _).
  pose proof (C10_zero_pagination_is_elided Fixture.fresh)
    as (_ & _ & _ & _ & _ & Hn).
  split; [reflexivity|]. split; [reflexivity|].
  split; [apply Hskip; reflexivity|].
  split; [apply Hlimit; reflexivity|].
  split; [apply Hlimit; reflexivity|].
  apply (Hn 10%Z). lia.
Defined.

(** ** The monad *)

Section MonadFacts.
Context {World A B : Type}.
Implicit Types (m : M World A) (k : A -> M World B) (s : State World).

Lemma bind_lift_normal (a : A) k s : bind (lift (Normal a)) k s = k a s.
Proof. reflexivity. Qed.

Lemma bind_normal m k s (a : A) s' :
  m s = (Normal a, s') -> bind m k s = k a s'.
Proof. unfold bind. now intros ->. Qed.

Lemma bind_throw m k s (e : exn) s' :
  m s = (Throw e, s') -> bind m k s = (Throw e, s').
Proof. unfold bind. now intros ->. Qed.

(** A continuation that sends nothing leaves the state as the first step
    left it. *)
Lemma snd_bind_silent m k s :
  (forall a s1, snd (k a s1) = s1) -> snd (bind m k s) = snd (m s).
Proof.
  intros Hk. unfold bind. destruct (m s) as [[a|e] s1]; cbn; [apply Hk|reflexivity].
Qed.
End MonadFacts.

(** ** DBConnection: one exchange *)

Section Exchange.
Context {World : Type}.
Variable fetch : Request -> World -> completion Response * World.

(** Every method of the connection sends exactly one request. *)
Lemma exchange_sent (r : Request) (failure : string) (s : State World) :
  sent (snd (DBConnection.cleanFetch (DBConnection.fetchFn fetch r failure) s))
  = (sent s ++ [r])%list.
Proof.
  unfold DBConnection.cleanFetch, DBConnection.fetchFn, bind, do_fetch,
    lift, throw.
  destruct (fetch r (world s)) as [[resp|e] w]; cbn; [|reflexivity].
  destruct (ok resp); cbn; [|reflexivity].
  destruct (json resp) as [v|e]; cbn; [|reflexivity].
  destruct (get_prop v "success") as [b|e]; cbn; [|reflexivity].
  destruct (truthy b); cbn.
  - destruct (get_prop v "data"); reflexivity.
  - destruct (get_prop v "message"); reflexivity.
Qed.

(** [cleanFetch] on a closure that resolves to an envelope. *)
Lemma cleanFetch_envelope (f : M World value) (s s' : State World)
  (success : bool) (data : value) (message : string) :
  f s = (Normal (envelope success data message), s') ->
  DBConnection.cleanFetch f s = (unwrapped success data message, s').
Proof.
  intros Hf. unfold DBConnection.cleanFetch.
  rewrite (bind_normal _ _ _ _ _ Hf).
  destruct success; reflexivity.
Qed.

Lemma exchange_unwraps (r : Request) (failure : string) (s : State World)
  (success : bool) (data : value) (message : string) :
  answers_with fetch (envelope success data message) ->
  exists s',
    DBConnection.cleanFetch (DBConnection.fetchFn fetch r failure) s
    = (unwrapped success data message, s').
Proof.
  intros Ha. destruct (Ha r (world s)) as (st & w' & Hf).
  eexists. apply cleanFetch_envelope.
  unfold DBConnection.fetchFn, bind, do_fetch. rewrite Hf. reflexivity.
Qed.
End Exchange.

(** ** DBModel: preparation steps on objects *)

Lemma prepare_object (d : obj) :
  exists fields, DBModel._prepareFields (VObj d) = Normal fields.
Proof. eexists. reflexivity. Qed.

Lemma prepare_all_objects (ds : list obj) :
  exists records, DBModel.prepare_all (map VObj ds) = Normal records.
Proof.
  induction ds as [|d r [records IH]]; cbn [map DBModel.prepare_all].
  - eexists. reflexivity.
  - destruct (prepare_object d) as [fields ->]. rewrite IH.
    eexists. reflexivity.
Qed.

Lemma find_object (fs : obj) (m : DBModel.t) :
  exists query, DBModel.find (VObj fs) m = Normal query.
Proof. eexists. reflexivity. Qed.

(** The steps that shape a result send nothing. *)
Lemma counts_silent {World : Type} (shape : value -> value) (res : value)
  (s : State World) :
  snd (bind (lift (get_prop res "length"))
         (fun n => ret (shape n)) s) = s.
Proof. unfold bind, lift, ret. destruct (get_prop res "length"); reflexivity. Qed.

(** ** Constrained and unconstrained writes *)

Ltac one_exchange :=
  eexists; split;
  [ eexists; split; [apply exchange_sent | reflexivity]
  | split; reflexivity ].

(** C9. The connection's [updateOne] and [deleteOne] each send one request
    whose body holds [filters] and [limit: 1]; [updateMany] and
    [deleteMany] each send one request whose body holds [filters] and no
    [limit] key.  The model's [updateOne], [findOneAndUpdate], [deleteOne],
    [findOneAndDelete], [updateMany] and [deleteMany] send the bodies of
    the connection methods they call. *)
Theorem C9_one_carries_limit_many_do_not {World : Type}
  (fetch : Request -> World -> completion Response * World)
  (c : DBConnection.t) (t : string) (filters fields : value)
  (m : DBModel.t) (d : obj) (s : State World) :
  (exists o,
      sends_body (DBConnection.updateOne fetch c t filters fields) s o
      /\ assoc_get "filters" o = Some filters
      /\ assoc_get "limit" o = Some (VNum 1))
  /\ (exists o,
      sends_body (DBConnection.deleteOne fetch c t filters) s o
      /\ assoc_get "filters" o = Some filters
      /\ assoc_get "limit" o = Some (VNum 1))
  /\ (exists o,
      sends_body (DBConnection.updateMany fetch c t filters fields) s o
      /\ assoc_get "filters" o = Some filters
      /\ has_key "limit" o = false)
  /\ (exists o,
      sends_body (DBConnection.deleteMany fetch c t filters) s o
      /\ assoc_get "filters" o = Some filters
      /\ has_key "limit" o = false)
  /\ (exists o,
      sends_body (DBModel.updateOne fetch filters (VObj d) m) s o
      /\ assoc_get "filters" o = Some filters
      /\ assoc_get "limit" o = Some (VNum 1))
  /\ (exists o,
      sends_body (DBModel.findOneAndUpdate fetch filters (VObj d) m) s o
      /\ assoc_get "filters" o = Some filters
      /\ assoc_get "limit" o = Some (VNum 1))
  /\ (exists o,
      sends_body (DBModel.deleteOne fetch filters m) s o
      /\ assoc_get "filters" o = Some filters
      /\ assoc_get "limit" o = Some (VNum 1))
  /\ (exists o,
      sends_body (DBModel.findOneAndDelete fetch filters m) s o
      /\ assoc_get "filters" o = Some filters
      /\ assoc_get "limit" o = Some (VNum 1))
  /\ (exists o,
      sends_body (DBModel.updateMany fetch filters (VObj d) m) s o
      /\ assoc_get "filters" o = Some filters
      /\ has_key "limit" o = false)
  /\ (exists o,
      sends_body (DBModel.deleteMany fetch filters m) s o
      /\ assoc_get "filters" o = Some filters
      /\ has_key "limit" o = false).
Proof.
  unfold sends_body.
  split; [one_exchange|]. split; [one_exchange|].
  split; [one_exchange|]. split; [one_exchange|].
  split; [|split; [|split; [|split; [|split]]]].
  - unfold DBModel.updateOne. destruct (prepare_object d) as [fs ->].
    rewrite bind_lift_normal, snd_bind_silent.
    + one_exchange.
    + intros res s1. rewrite snd_bind_silent; [reflexivity|].
      intros n s2. apply counts_silent.
  - unfold DBModel.findOneAndUpdate. destruct (prepare_object d) as [fs ->].
    rewrite bind_lift_normal. one_exchange.
  - unfold DBModel.deleteOne. rewrite snd_bind_silent.
    + one_exchange.
    + intros res s1. apply counts_silent.
  - unfold DBModel.findOneAndDelete. one_exchange.
  - unfold DBModel.updateMany. destruct (prepare_object d) as [fs ->].
    rewrite bind_lift_normal, snd_bind_silent.
    + one_exchange.
    + intros res s1. rewrite snd_bind_silent; [reflexivity|].
      intros n s2. apply counts_silent.
  - unfold DBModel.deleteMany. rewrite snd_bind_silent.
    + one_exchange.
    + intros res s1. apply counts_silent.
Qed.

(** ** Result summaries *)

Ltac crack :=
  repeat match goal with
         | |- context [match ?x with _ => _ end] => destruct x
         end.

Lemma acknowledged_update {World : Type} (call : M World value)
  (s1 s2 : State World) (r : value) :
  bind call
    (fun res =>
       bind (lift (get_prop res "length")) (fun matchedCount =>
       bind (lift (get_prop res "length")) (fun modifiedCount =>
       ret (VObj [("acknowledged", VBool true);
                  ("matchedCount", matchedCount);
                  ("modifiedCount", modifiedCount)])))) s1
  = (Normal r, s2) ->
  prop r "acknowledged" = VBool true.
Proof.
  unfold bind, lift, ret. crack; intros H; inversion H; reflexivity.
Qed.

Lemma acknowledged_delete {World : Type} (call : M World value)
  (s1 s2 : State World) (r : value) :
  bind call
    (fun res =>
       bind (lift (get_prop res "length")) (fun deletedCount =>
       ret (VObj [("acknowledged", VBool true);
                  ("deletedCount", deletedCount)]))) s1
  = (Normal r, s2) ->
  prop r "acknowledged" = VBool true.
Proof.
  unfold bind, lift, ret. crack; intros H; inversion H; reflexivity.
Qed.

(** C5. When the connection's [updateOne] or [updateMany] resolves to a
    list [l], the model returns [{acknowledged: true, matchedCount: n,
    modifiedCount: n}] with [n] the length of [l]; when [deleteOne] or
    [deleteMany] resolves to a list [l], the model returns
    [{acknowledged: true, deletedCount: n}].  The elements of [l] play no
    part.  Whenever one of the four operations returns at all, its result
    has [acknowledged] true. *)
Theorem C5_counts_are_list_lengths {World : Type}
  (fetch : Request -> World -> completion Response * World)
  (m : DBModel.t) (filters updateData fields : value) (l : list value)
  (s s' : State World) :
  let n := VNum (Z.of_nat (List.length l)) in
  let c := DBModel.apiClient m in
  let t := DBModel.collectionName m in
  (DBModel._prepareFields updateData = Normal fields ->
   DBConnection.updateOne fetch c t filters fields s = (Normal (VArr l), s') ->
   DBModel.updateOne fetch filters updateData m s
   = (Normal (VObj [("acknowledged", VBool true); ("matchedCount", n);
                    ("modifiedCount", n)]), s'))
  /\ (DBModel._prepareFields updateData = Normal fields ->
      DBConnection.updateMany fetch c t filters fields s
      = (Normal (VArr l), s') ->
      DBModel.updateMany fetch filters updateData m s
      = (Normal (VObj [("acknowledged", VBool true); ("matchedCount", n);
                       ("modifiedCount", n)]), s'))
  /\ (DBConnection.deleteOne fetch c t filters s = (Normal (VArr l), s') ->
      DBModel.deleteOne fetch filters m s
      = (Normal (VObj [("acknowledged", VBool true); ("deletedCount", n)]),
         s'))
  /\ (DBConnection.deleteMany fetch c t filters s = (Normal (VArr l), s') ->
      DBModel.deleteMany fetch filters m s
      = (Normal (VObj [("acknowledged", VBool true); ("deletedCount", n)]),
         s'))
  /\ (forall r s1 s2,
        DBModel.updateOne fetch filters updateData m s1 = (Normal r, s2)
        \/ DBModel.updateMany fetch filters updateData m s1 = (Normal r, s2)
        \/ DBModel.deleteOne fetch filters m s1 = (Normal r, s2)
        \/ DBModel.deleteMany fetch filters m s1 = (Normal r, s2) ->
        prop r "acknowledged" = VBool true).
Proof.
  cbv zeta. repeat split.
  - intros Hp Hc. unfold DBModel.updateOne.
    rewrite Hp, bind_lift_normal, (bind_normal _ _ _ _ _ Hc). reflexivity.
  - intros Hp Hc. unfold DBModel.updateMany.
    rewrite Hp, bind_lift_normal, (bind_normal _ _ _ _ _ Hc). reflexivity.
  - intros Hc. unfold DBModel.deleteOne.
    rewrite (bind_normal _ _ _ _ _ Hc). reflexivity.
  - intros Hc. unfold DBModel.deleteMany.
    rewrite (bind_normal _ _ _ _ _ Hc). reflexivity.
  - intros r s1 s2 [H|[H|[H|H]]].
    + unfold DBModel.updateOne in H.
      destruct (DBModel._prepareFields updateData) as [fs|e];
        [|discriminate H].
      rewrite bind_lift_normal in H. exact (acknowledged_update _ _ _ _ H).
    + unfold DBModel.updateMany in H.
      destruct (DBModel._prepareFields updateData) as [fs|e];
        [|discriminate H].
      rewrite bind_lift_normal in H. exact (acknowledged_update _ _ _ _ H).
    + exact (acknowledged_delete _ _ _ _ H).
    + exact (acknowledged_delete _ _ _ _ H).
Qed.

(** The transport of property P5: [updateMany] answered with a list of three
    records. *)
Lemma C5_counts_are_list_lengths_witness :
  let fetch :=
    Fixture.canned
      (Fixture.answer
         (envelope true
            (VArr [VObj [("id", VNum 1)]; VObj [("id", VNum 2)];
                   VObj [("id", VNum 3)]]) "")) in
  let filters := VObj [("active", VBool false)] in
  let updateData := VObj [("age", VNum 32)] in
  DBModel.updateMany fetch filters updateData Fixture.users Fixture.start
  = (Normal (VObj [("acknowledged", VBool true); ("matchedCount", VNum 3);
                   ("modifiedCount", VNum 3)]),
     snd (DBModel.updateMany fetch filters updateData Fixture.users
            Fixture.start))
  /\ DBModel.deleteOne fetch filters Fixture.users Fixture.start
     = (Normal (VObj [("acknowledged", VBool true); ("deletedCount", VNum 3)]),
        snd (DBModel.deleteOne fetch filters Fixture.users Fixture.start))
  /\ prop (VObj [("acknowledged", VBool true); ("deletedCount", VNum 3)])
       "acknowledged" = VBool true.
Proof.
  cbv zeta.
  pose (fetch :=
    Fixture.canned
      (Fixture.answer
         (envelope true
            (VArr [VObj [("id", VNum 1)]; VObj [("id", VNum 2)];
                   VObj [("id", VNum 3)]]) ""))).
  pose (records :=
    [VObj [("id", VNum 1)]; VObj [("id", VNum 2)]; VObj [("id", VNum 3)]]).
  split; [|split].
  - apply (proj1 (proj2
      (C5_counts_are_list_lengths fetch Fixture.users
         (VObj [("active", VBool false)]) (VObj [("age", VNum 32)])
         (VArr [VObj [("field_name", VStr "age"); ("field_value", VNum 32)]])
         records Fixture.start _))); reflexivity.
  - apply (proj1 (proj2 (proj2
      (C5_counts_are_list_lengths fetch Fixture.users
         (VObj [("active", VBool false)]) VUndefined VUndefined
         records Fixture.start _)))); reflexivity.
  - apply (proj2 (proj2 (proj2 (proj2
      (C5_counts_are_list_lengths fetch Fixture.users
         (VObj [("active", VBool false)]) VUndefined VUndefined
         records Fixture.start Fixture.start))))
      _ Fixture.start
      (snd (DBModel.deleteOne fetch (VObj [("active", VBool false)])
              Fixture.users Fixture.start))).
    right. right. left. reflexivity.
Defined.

(** ** Absent documents *)

Lemma findOne_first_or_null {World : Type}
  (fetch : Request -> World -> completion Response * World)
  (m : DBModel.t) (filters : value) (query : QueryBuilder.t)
  (l : list value) (s s' : State World) :
  DBModel.find filters m = Normal query ->
  QueryBuilder.exec fetch (QueryBuilder.limit (VNum 1) query) s
  = (Normal (VArr l), s') ->
  DBModel.findOne fetch filters m s
  = (Normal (match l with [] => VNull | d :: _ => js_or d VNull end), s').
Proof.
  intros Hf He. unfold DBModel.findOne.
  rewrite Hf, bind_lift_normal, (bind_normal _ _ _ _ _ He).
  destruct l; reflexivity.
Qed.

(** C7. When the query behind [findOne] resolves to the empty list,
    [findOne] returns null, a normal result and not an exception; when it
    resolves to a list that starts with a document, [findOne] returns that
    document.  The same holds of [findById], whose query is the one
    [findOne] builds from [{id}]. *)
Theorem C7_findOne_absent_is_null {World : Type}
  (fetch : Request -> World -> completion Response * World)
  (m : DBModel.t) (filters id : value) (query : QueryBuilder.t)
  (s s' : State World) :
  (DBModel.find filters m = Normal query ->
   QueryBuilder.exec fetch (QueryBuilder.limit (VNum 1) query) s
   = (Normal (VArr []), s') ->
   DBModel.findOne fetch filters m s = (Normal VNull, s'))
  /\ (forall (d : obj) (rest : list value),
        DBModel.find filters m = Normal query ->
        QueryBuilder.exec fetch (QueryBuilder.limit (VNum 1) query) s
        = (Normal (VArr (VObj d :: rest)), s') ->
        DBModel.findOne fetch filters m s = (Normal (VObj d), s'))
  /\ (QueryBuilder.exec fetch
        (QueryBuilder.limit (VNum 1)
           (QueryBuilder.where_ "id" [id]
              (QueryBuilder.new (DBModel.collectionName m)
                 (DBModel.apiClient m)))) s
      = (Normal (VArr []), s') ->
      DBModel.findById fetch id m s = (Normal VNull, s'))
  /\ (forall (d : obj) (rest : list value),
        QueryBuilder.exec fetch
          (QueryBuilder.limit (VNum 1)
             (QueryBuilder.where_ "id" [id]
                (QueryBuilder.new (DBModel.collectionName m)
                   (DBModel.apiClient m)))) s
        = (Normal (VArr (VObj d :: rest)), s') ->
        DBModel.findById fetch id m s = (Normal (VObj d), s')).
Proof.
  repeat split.
  - intros Hf He. exact (findOne_first_or_null fetch m _ _ _ _ _ Hf He).
  - intros d rest Hf He.
    exact (findOne_first_or_null fetch m _ _ _ _ _ Hf He).
  - intros He. unfold DBModel.findById.
    exact (findOne_first_or_null fetch m (VObj [("id", id)])
             (QueryBuilder.where_ "id" [id]
                (QueryBuilder.new (DBModel.collectionName m)
                   (DBModel.apiClient m))) [] s s' eq_refl He).
  - intros d rest He. unfold DBModel.findById.
    exact (findOne_first_or_null fetch m (VObj [("id", id)])
             (QueryBuilder.where_ "id" [id]
                (QueryBuilder.new (DBModel.collectionName m)
                   (DBModel.apiClient m))) (VObj d :: rest) s s' eq_refl He).
Qed.

(** Property P6: [findOne({email: 'missing@x.com'})] and [findById] over a
    transport that answers with an empty list, then with one document. *)
Lemma C7_findOne_absent_is_null_witness :
  let empty := Fixture.canned (Fixture.answer (envelope true (VArr []) "")) in
  let jo := [("id", VNum 7); ("name", VStr "Jo")] in
  let one :=
    Fixture.canned (Fixture.answer (envelope true (VArr [VObj jo]) "")) in
  let filters := VObj [("email", VStr "missing@x.com")] in
  let query :=
    QueryBuilder.limit (VNum 1)
      (QueryBuilder.where_ "email" [VStr "missing@x.com"] Fixture.fresh) in
  DBModel.findOne empty filters Fixture.users Fixture.start
  = (Normal VNull, snd (QueryBuilder.exec empty query Fixture.start))
  /\ DBModel.findOne one filters Fixture.users Fixture.start
     = (Normal (VObj jo), snd (QueryBuilder.exec one query Fixture.start))
  /\ fst (DBModel.findById empty (VNum 7) Fixture.users Fixture.start)
     = Normal VNull
  /\ fst (DBModel.findById one (VNum 7) Fixture.users Fixture.start)
     = Normal (VObj jo).
Proof.
  intros empty jo one filters query.
  pose (found :=
    QueryBuilder.where_ "email" [VStr "missing@x.com"] Fixture.fresh).
  split; [|split; [|split]].
  - exact (proj1
      (C7_findOne_absent_is_null empty Fixture.users filters VNull found
         Fixture.start (snd (QueryBuilder.exec empty query Fixture.start)))
      eq_refl eq_refl).
  - exact (proj1 (proj2
      (C7_findOne_absent_is_null one Fixture.users filters VNull found
         Fixture.start (snd (QueryBuilder.exec one query Fixture.start))))
      jo [] eq_refl eq_refl).
  - exact (f_equal fst (proj1 (proj2 (proj2
      (C7_findOne_absent_is_null empty Fixture.users filters (VNum 7) found
         Fixture.start
         (snd (DBModel.findById empty (VNum 7) Fixture.users
                 Fixture.start)))))
      eq_refl)).
  - exact (f_equal fst (proj2 (proj2 (proj2
      (C7_findOne_absent_is_null one Fixture.users filters (VNum 7) found
         Fixture.start
         (snd (DBModel.findById one (VNum 7) Fixture.users
                 Fixture.start)))))
      jo [] eq_refl)).
Defined.

(** ** The response envelope *)

Ltac unfold_connection :=
  unfold QueryBuilder.exec, DBConnection.insertOne, DBConnection.insertMany,
    DBConnection.query, DBConnection.updateById, DBConnection.updateOne,
    DBConnection.updateMany, DBConnection.deleteById, DBConnection.deleteOne,
    DBConnection.deleteMany, DBConnection.count, DBConnection.exists_.




Lemma canned_answers (e : value) :
  answers_with (Fixture.canned (Fixture.answer e)) e.
Proof. intros r w. exists "OK", w. reflexivity. Qed.


(** * Further properties of the code *)

(** ** Objects with distinct keys *)

Lemma distinct_NoDup (keys : list string) :
  distinct keys = true -> NoDup keys.
Proof.
  induction keys as [|k r IH]; cbn [distinct]; intros H; [constructor|].
  apply andb_true_iff in H as [Hk Hr]. constructor; [|now apply IH].
  intros Hin. apply negb_true_iff in Hk.
  assert (existsb (String.eqb k) r = true) as E.
  { apply existsb_exists. exists k. split; [exact Hin|apply String.eqb_refl]. }
  congruence.
Qed.

Section AssocKeys.
Context {A : Type}.
Implicit Types (k : string) (v : A) (o : list (string * A)).

Lemma has_key_in k o : has_key k o = true <-> In k (map fst o).
Proof.
  unfold has_key. induction o as [|[k' v'] r IH]; cbn [assoc_get map fst In].
  - split; [discriminate|contradiction].
  - destruct (String.eqb_spec k k') as [->|Hne].
    + split; [now left|reflexivity].
    + rewrite IH. split; [now right|].
      intros [E|Hin]; [congruence|exact Hin].
Qed.

Lemma has_key_false k o : has_key k o = false <-> ~ In k (map fst o).
Proof.
  rewrite <- has_key_in. destruct (has_key k o); split; congruence.
Qed.

Lemma assoc_get_member k v o :
  NoDup (map fst o) -> In (k, v) o -> assoc_get k o = Some v.
Proof.
  induction o as [|[k' v'] r IH]; cbn [assoc_get map fst In];
    [contradiction|].
  intros Hnd [E|Hin].
  - injection E as -> ->. now rewrite String.eqb_refl.
  - inversion Hnd as [|? ? Hk Hr]; subst.
    destruct (String.eqb_spec k k') as [->|Hne]; [|now apply IH].
    exfalso. apply Hk. now apply (in_map fst) in Hin.
Qed.

Lemma assoc_set_absent k v o :
  has_key k o = false -> assoc_set k v o = (o ++ [(k, v)])%list.
Proof.
  unfold has_key.
  induction o as [|[k' v'] r IH]; cbn [assoc_get assoc_set app];
    [reflexivity|].
  destruct (String.eqb k k'); [discriminate|].
  intros H. now rewrite IH.
Qed.

Lemma assoc_set_present k v o :
  has_key k o = true -> map fst (assoc_set k v o) = map fst o.
Proof.
  unfold has_key.
  induction o as [|[k' v'] r IH]; cbn [assoc_get assoc_set map fst];
    [discriminate|].
  destruct (String.eqb_spec k k') as [->|Hne]; cbn [map fst];
    [reflexivity|].
  intros H. now rewrite IH.
Qed.

Lemma assoc_set_keys k v o :
  map fst (assoc_set k v o)
  = if has_key k o then map fst o else (map fst o ++ [k])%list.
Proof.
  destruct (has_key k o) eqn:E.
  - now apply assoc_set_present.
  - rewrite (assoc_set_absent _ _ _ E), map_app. reflexivity.
Qed.

End AssocKeys.

(** ** The order of own keys *)

Lemma array_index_numeral (k : string) (n : N) :
  array_index k = Some n -> k = NilZero.string_of_uint (N.to_uint n).
Proof.
  unfold array_index. destruct (NilEmpty.uint_of_string k) as [u|];
    [|discriminate].
  cbv zeta.
  destruct (String.eqb (NilZero.string_of_uint (N.to_uint (N.of_uint u))) k
            && (N.of_uint u <=? 4294967294)%N) eqn:E; [|discriminate].
  intros H. injection H as <-. apply andb_true_iff in E as [E _].
  apply String.eqb_eq in E. now symmetry.
Qed.

Lemma array_index_inj (k k' : string) (n : N) :
  array_index k = Some n -> array_index k' = Some n -> k = k'.
Proof.
  intros H H'. apply array_index_numeral in H, H'. congruence.
Qed.

Lemma before_irrefl (k : string) : before k k = false.
Proof.
  unfold before. destruct (array_index k).
  - apply N.ltb_irrefl.
  - now rewrite String.eqb_refl.
Qed.

Lemma before_index (k b : string) (n : N) :
  array_index k = Some n ->
  before k b
  = match array_index b with Some nb => (n <? nb)%N | None => true end.
Proof. intros H. unfold before. now rewrite H. Qed.

Lemma before_name (a k : string) :
  array_index k = None -> a <> k -> before a k = true.
Proof.
  intros H Hne. unfold before. rewrite H.
  destruct (array_index a); [reflexivity|].
  now apply negb_true_iff, String.eqb_neq.
Qed.

Lemma own_order_not_in (k : string) (keys : list string) :
  forallb (before k) keys = true -> ~ In k keys.
Proof.
  intros H Hin. rewrite forallb_forall in H. specialize (H k Hin).
  rewrite before_irrefl in H. discriminate.
Qed.

Lemma own_order_NoDup (keys : list string) :
  own_order keys = true -> NoDup keys.
Proof.
  induction keys as [|k r IH]; cbn [own_order]; intros H; [constructor|].
  apply andb_true_iff in H as [Hk Hr].
  constructor; [now apply own_order_not_in|now apply IH].
Qed.

Lemma own_order_app (l1 l2 : list string) :
  own_order (l1 ++ l2) = true <->
  own_order l1 = true /\ own_order l2 = true
  /\ (forall a b, In a l1 -> In b l2 -> before a b = true).
Proof.
  induction l1 as [|x r IH]; cbn [app own_order].
  - split; [intros H; repeat split; [exact H|intros a b []]|now intros (_ & H & _)].
  - rewrite forallb_app, !andb_true_iff, IH, !forallb_forall. split.
    + intros [[Hr H2] (Hor & Ho2 & Hc)]. repeat split; try assumption.
      intros a b [<-|Ha] Hb; [now apply H2|now apply Hc].
    + intros ([Hr Hor] & Ho2 & Hc). repeat split; try assumption.
      * intros b Hb. apply Hc; [now left|exact Hb].
      * intros a b Ha Hb. apply Hc; [now right|exact Hb].
Qed.

Lemma own_order_insert (s l : list string) (k : string) :
  own_order (s ++ l) = true ->
  (forall a, In a s -> before a k = true) ->
  (forall b, In b l -> before k b = true) ->
  own_order (s ++ k :: l) = true.
Proof.
  intros H Hs Hl. apply own_order_app in H as (Hos & Hol & Hc).
  apply own_order_app. repeat split; [exact Hos| |].
  - cbn [own_order]. apply andb_true_iff. split; [|exact Hol].
    now apply forallb_forall.
  - intros a b Ha [<-|Hb]; [now apply Hs|now apply Hc].
Qed.

Lemma own_order_remove (s l : list string) (k : string) :
  own_order (s ++ k :: l) = true -> own_order (s ++ l) = true.
Proof.
  intros H. apply own_order_app in H as (Hos & Hol & Hc).
  cbn [own_order] in Hol. apply andb_true_iff in Hol as [_ Hol].
  apply own_order_app. repeat split; try assumption.
  intros a b Ha Hb. apply Hc; [exact Ha|now right].
Qed.

Section OwnOrder.
Context {A : Type}.
Implicit Types (k : string) (v : A) (o : list (string * A)).

(** Where a new array index goes: after the members with a smaller
    index, before all the others. *)
Lemma insert_index_split (n : N) k v o :
  array_index k = Some n -> has_key k o = false ->
  own_order (map fst o) = true ->
  exists s l,
    o = (s ++ l)%list
    /\ insert_index n k v o = (s ++ (k, v) :: l)%list
    /\ (forall a, In a (map fst s) -> before a k = true)
    /\ (forall b, In b (map fst l) -> before k b = true).
Proof.
  intros Hn. induction o as [|[k0 v0] r IH]; intros Hk Ho.
  - exists [], []. repeat split; intros ? [].
  - apply has_key_cons_false in Hk as [Hne Hr].
    cbn [map fst own_order] in Ho. apply andb_true_iff in Ho as [H0 Hor].
    rewrite forallb_forall in H0. cbn [insert_index].
    assert (forall b, In b (map fst r) -> before k0 b = true ->
                      (forall n0, array_index k0 = Some n0 -> (n <? n0)%N = true)
                      -> before k b = true) as Hlater.
    { intros b Hb Hkb Hsmall. rewrite (before_index k b n Hn).
      unfold before in Hkb. destruct (array_index k0) as [n0|] eqn:E0.
      - destruct (array_index b) as [nb|]; [|reflexivity].
        specialize (Hsmall n0 eq_refl).
        apply N.ltb_lt in Hkb, Hsmall. apply N.ltb_lt. lia.
      - destruct (array_index b); [discriminate|reflexivity]. }
    destruct (array_index k0) as [n0|] eqn:E0.
    + destruct (n0 <? n)%N eqn:Elt.
      * destruct (IH Hr Hor) as (s & l & -> & -> & Hs & Hl).
        exists ((k0, v0) :: s), l. repeat split; [|exact Hl].
        intros a [<-|Ha]; [|now apply Hs].
        cbn [fst]. unfold before. now rewrite E0, Hn.
      * assert ((n <? n0)%N = true) as Hgt.
        { apply N.ltb_lt. apply N.ltb_ge in Elt.
          assert (n <> n0) as Hneq.
          { intros <-. apply String.eqb_neq in Hne. apply Hne.
            exact (array_index_inj _ _ _ Hn E0). }
          lia. }
        exists [], ((k0, v0) :: r). repeat split; [intros ? []|].
        intros b [<-|Hb].
        -- cbn [fst]. rewrite (before_index k k0 n Hn). now rewrite E0.
        -- apply (Hlater b Hb (H0 b Hb)). intros n1 E. now injection E as <-.
    + exists [], ((k0, v0) :: r). repeat split; [intros ? []|].
      intros b [<-|Hb].
      * cbn [fst]. rewrite (before_index k k0 n Hn). now rewrite E0.
      * apply (Hlater b Hb (H0 b Hb)). discriminate.
Qed.

(** What defining a member does to the keys of an object. *)
Lemma own_define_keys k v o :
  own_order (map fst o) = true ->
  (has_key k o = true -> map fst (own_define k v o) = map fst o)
  /\ (has_key k o = false -> array_index k = None ->
      own_define k v o = (o ++ [(k, v)])%list)
  /\ (has_key k o = false -> forall n, array_index k = Some n ->
      exists s l,
        o = (s ++ l)%list
        /\ own_define k v o = (s ++ (k, v) :: l)%list
        /\ (forall a, In a (map fst s) -> before a k = true)
        /\ (forall b, In b (map fst l) -> before k b = true)).
Proof.
  intros Ho. unfold own_define. split; [|split].
  - intros Hk. rewrite Hk.
    destruct (array_index k); now apply assoc_set_present.
  - intros Hk Hn. rewrite Hn. now apply assoc_set_absent.
  - intros Hk n Hn. rewrite Hn, Hk. now apply insert_index_split.
Qed.

Lemma own_define_order k v o :
  own_order (map fst o) = true ->
  own_order (map fst (own_define k v o)) = true.
Proof.
  intros Ho. destruct (own_define_keys k v o Ho) as (Hin & Hname & Hidx).
  destruct (has_key k o) eqn:Hk.
  - now rewrite (Hin eq_refl).
  - destruct (array_index k) as [n|] eqn:Hn.
    + destruct (Hidx eq_refl n eq_refl) as (s & l & E & -> & Hs & Hl).
      rewrite E, map_app in Ho. rewrite map_app. cbn [map fst].
      now apply own_order_insert.
    + rewrite (Hname eq_refl eq_refl), map_app. cbn [map fst].
      rewrite <- (app_nil_r (map fst o)) in Ho.
      apply own_order_insert; [exact Ho| |intros ? []].
      intros a Ha. apply before_name; [exact Hn|].
      intros ->. apply has_key_false in Hk. contradiction.
Qed.

Lemma own_set_order k v o :
  own_order (map fst o) = true ->
  own_order (map fst (own_set k v o)) = true.
Proof.
  intros Ho. unfold own_set.
  destruct (String.eqb k "__proto__" && negb (has_key k o));
    [exact Ho|now apply own_define_order].
Qed.

(** A member that may stand after all the others is put last. *)
Lemma own_define_last k v o :
  (forall a, In a (map fst o) -> before a k = true) ->
  own_define k v o = (o ++ [(k, v)])%list.
Proof.
  intros Hall.
  assert (has_key k o = false) as Hk.
  { apply has_key_false. intros Hin. specialize (Hall k Hin).
    rewrite before_irrefl in Hall. discriminate. }
  unfold own_define. rewrite Hk. destruct (array_index k) as [n|] eqn:Hn;
    [|now apply assoc_set_absent].
  clear Hk. induction o as [|[k0 v0] r IH]; cbn [insert_index];
    [reflexivity|].
  pose proof (Hall k0 (or_introl eq_refl)) as H0.
  unfold before in H0. rewrite Hn in H0.
  destruct (array_index k0) as [n0|]; [|discriminate]. rewrite H0.
  cbn [app]. rewrite IH; [reflexivity|].
  intros a Ha. apply Hall. now right.
Qed.

(** Assigning the keys of an object, in their order, to an object that
    holds the keys before them: each is put last, but [__proto__], which
    is not recorded. *)
Lemma fold_own_set_ordered (g : string -> A) (keys : list string) o :
  own_order (map fst o ++ keys) = true ->
  fold_left (fun acc k => own_set k (g k) acc) keys o
  = (o ++ map (fun k => (k, g k))
            (filter (fun k => negb (String.eqb k "__proto__")) keys))%list.
Proof.
  revert o. induction keys as [|k r IH]; intros o Ho;
    cbn [fold_left filter map].
  - now rewrite app_nil_r.
  - assert (forall a, In a (map fst o) -> before a k = true) as Hall.
    { intros a Ha. apply own_order_app in Ho as (_ & _ & Hc).
      apply Hc; [exact Ha|now left]. }
    assert (has_key k o = false) as Hk.
    { apply has_key_false. intros Hin. specialize (Hall k Hin).
      rewrite before_irrefl in Hall. discriminate. }
    unfold own_set at 2. rewrite Hk.
    destruct (String.eqb k "__proto__") eqn:Ep; cbn [negb andb].
    + apply IH. now apply own_order_remove in Ho.
    + rewrite own_define_last by exact Hall.
      rewrite IH; [cbn [map]; now rewrite <- app_assoc|].
      rewrite map_app, <- app_assoc. exact Ho.
Qed.
End OwnOrder.

(** ** Documents and filters given as objects *)

Lemma members_read_back {B : Type} (d : obj) (g : string -> value -> B) :
  NoDup (map fst d) ->
  map (fun key => g key (prop (VObj d) key)) (map fst d)
  = map (fun member => g (fst member) (snd member)) d.
Proof.
  intros Hnd. rewrite map_map. apply map_ext_in. intros [k v] Hin.
  cbn [fst snd prop]. now rewrite (assoc_get_member k v d Hnd Hin).
Qed.

Lemma prepare_distinct (d : obj) :
  distinct (map fst d) = true ->
  DBModel._prepareFields (VObj d) = Normal (VArr (map field_pair d)).
Proof.
  intros Hd. apply distinct_NoDup in Hd.
  unfold DBModel._prepareFields. cbn [Object_keys nullish cbind own_keys].
  now rewrite (members_read_back d
                 (fun k v => VObj [("field_name", VStr k);
                                   ("field_value", v)]) Hd).
Qed.

Lemma prepare_nullish (data : value) :
  nullish data = true -> DBModel._prepareFields data = Throw TypeError.
Proof.
  intros Hn. unfold DBModel._prepareFields, Object_keys. now rewrite Hn.
Qed.

(** X1. [_prepareFields] turns an object into the list of its members, in
    their order, each as [{field_name, field_value}]; on null and undefined
    it raises a TypeError. *)
Theorem X1_prepareFields_lists_the_members :
  (forall d : obj,
      distinct (map fst d) = true ->
      DBModel._prepareFields (VObj d) = Normal (VArr (map field_pair d)))
  /\ (forall data : value,
        nullish data = true -> DBModel._prepareFields data = Throw TypeError).
Proof.
  split; [exact prepare_distinct|exact prepare_nullish].
Qed.

Lemma X1_prepareFields_lists_the_members_witness :
  DBModel._prepareFields (VObj [("name", VStr "Jo"); ("age", VNum 30)])
  = Normal
      (VArr [VObj [("field_name", VStr "name"); ("field_value", VStr "Jo")];
             VObj [("field_name", VStr "age"); ("field_value", VNum 30)]])
  /\ DBModel._prepareFields VNull = Throw TypeError.
Proof.
  split.
  - exact (proj1 X1_prepareFields_lists_the_members
             [("name", VStr "Jo"); ("age", VNum 30)] eq_refl).
  - exact (proj2 X1_prepareFields_lists_the_members VNull eq_refl).
Defined.

Lemma fold_where_equals (fs : value) (keys : list string)
  (q : QueryBuilder.t) :
  fold_left
    (fun query key => QueryBuilder.where_ key [prop fs key] query) keys q
  = QueryBuilder.mk (QueryBuilder.collectionName q) (QueryBuilder.apiClient q)
      (fold_left (fun acc key => own_set key (equals (prop fs key)) acc)
         keys (QueryBuilder.filters q))
      (QueryBuilder.sortOptions q) (QueryBuilder.limitValue q)
      (QueryBuilder.skipValue q) (QueryBuilder.selectFields q)
      (QueryBuilder.populateFields q).
Proof.
  revert q. induction keys as [|k r IH]; intros q; cbn [fold_left].
  - now destruct q.
  - rewrite IH. reflexivity.
Qed.

Lemma recorded_read_back (fs l : obj) :
  (forall member, In member l ->
     assoc_get (fst member) fs = Some (snd member)) ->
  map (fun k => (k, equals (prop (VObj fs) k)))
    (filter (fun k => negb (String.eqb k "__proto__")) (map fst l))
  = recorded l.
Proof.
  unfold recorded. induction l as [|[k v] r IH]; intros Hl;
    cbn [map fst filter]; [reflexivity|].
  assert (forall member, In member r ->
            assoc_get (fst member) fs = Some (snd member)) as Hr
    by (intros member Hin; apply Hl; now right).
  destruct (negb (String.eqb k "__proto__")); [|now apply IH].
  pose proof (Hl (k, v) (or_introl eq_refl)) as E. cbn [fst snd] in E.
  cbn [map]. f_equal; [|now apply IH].
  cbn [fst snd prop]. now rewrite E.
Qed.

Lemma find_ordered (m : DBModel.t) (fs : obj) :
  own_order (map fst fs) = true ->
  DBModel.find (VObj fs) m
  = Normal
      (QueryBuilder.mk (DBModel.collectionName m) (DBModel.apiClient m)
         (recorded fs) (VObj []) VNull (VNum 0) VNull []).
Proof.
  intros Ho. unfold DBModel.find.
  cbn [default Object_keys nullish cbind own_keys].
  rewrite fold_where_equals. cbn [QueryBuilder.new QueryBuilder.filters
    QueryBuilder.collectionName QueryBuilder.apiClient
    QueryBuilder.sortOptions QueryBuilder.limitValue QueryBuilder.skipValue
    QueryBuilder.selectFields QueryBuilder.populateFields].
  rewrite (fold_own_set_ordered (fun key => equals (prop (VObj fs) key)))
    by exact Ho.
  cbn [app]. rewrite recorded_read_back; [reflexivity|].
  intros [k v] Hin. apply assoc_get_member; [|exact Hin].
  now apply own_order_NoDup.
Qed.

(** X2. [find] with a filter object returns a builder that is fresh but for
    its filters, which hold the members of the object, in the order of its
    keys, each wrapped as an equality predicate [{$eq: value}] whatever the
    value is; a member named [__proto__] is not recorded.  [find(null)]
    raises a TypeError. *)
Theorem X2_find_wraps_members_in_equalities (m : DBModel.t) :
  (forall fs : obj,
      own_order (map fst fs) = true ->
      DBModel.find (VObj fs) m
      = Normal
          (QueryBuilder.mk (DBModel.collectionName m) (DBModel.apiClient m)
             (map (fun member => (fst member, equals (snd member)))
                (filter
                   (fun member => negb (String.eqb (fst member) "__proto__"))
                   fs))
             (VObj []) VNull (VNum 0) VNull []))
  /\ DBModel.find VNull m = Throw TypeError.
Proof.
  split; [exact (find_ordered m)|reflexivity].
Qed.

Lemma X2_find_wraps_members_in_equalities_witness :
  DBModel.find
    (VObj [("7", VStr "seven"); ("active", VBool true);
           ("__proto__", VNum 1); ("age", VObj [("$gte", VNum 25)])])
    Fixture.users
  = Normal
      (QueryBuilder.mk "users" Fixture.conn
         [("7", VObj [("$eq", VStr "seven")]);
          ("active", VObj [("$eq", VBool true)]);
          ("age", VObj [("$eq", VObj [("$gte", VNum 25)])])]
         (VObj []) VNull (VNum 0) VNull []).
Proof.
  exact (proj1 (X2_find_wraps_members_in_equalities Fixture.users)
           [("7", VStr "seven"); ("active", VBool true);
            ("__proto__", VNum 1); ("age", VObj [("$gte", VNum 25)])]
           eq_refl).
Defined.

(** ** The request a query sends *)

(** X3. [exec] sends exactly one request: a GET on the records of the
    builder's collection, with the headers of its connection, no body, and
    the search parameters [_buildQueryParams] makes of the builder. *)
Theorem X3_exec_sends_the_serialized_builder {World : Type}
  (fetch : Request -> World -> completion Response * World)
  (q : QueryBuilder.t) (s : State World) :
  sends (QueryBuilder.exec fetch q) s
    [mkRequest "GET"
       (DBConnection.baseURL (QueryBuilder.apiClient q) ++ "/collections/"
        ++ QueryBuilder.collectionName q ++ "/records")
       (Some (serialize q))
       (DBConnection.headers (QueryBuilder.apiClient q)) None].
Proof. apply exchange_sent. Qed.

Lemma then_passes_on {World : Type}
  (fetch : Request -> World -> completion Response * World)
  (q : QueryBuilder.t) (s : State World) :
  QueryBuilder.then_ fetch None None q s = QueryBuilder.exec fetch q s.
Proof.
  unfold QueryBuilder.then_.
  destruct (QueryBuilder.exec fetch q s) as [[results|error] s']; reflexivity.
Qed.

(** X4. Without handlers, [then] is [exec]: the same outcome and the same
    single request.  With handlers, the results of a query that succeeds go
    to [resolve] and [reject] is not consulted; the error of a query that
    fails goes to [reject], and what that handler returns is the outcome. *)
Theorem X4_then_hands_the_outcome_of_exec {World : Type}
  (fetch : Request -> World -> completion Response * World)
  (q : QueryBuilder.t) (s : State World)
  (resolve : value -> M World value) (reject reject' : exn -> M World value) :
  QueryBuilder.then_ fetch None None q s = QueryBuilder.exec fetch q s
  /\ (forall results s',
        QueryBuilder.exec fetch q s = (Normal results, s') ->
        QueryBuilder.then_ fetch (Some resolve) (Some reject) q s
        = resolve results s'
        /\ QueryBuilder.then_ fetch (Some resolve) (Some reject) q s
           = QueryBuilder.then_ fetch (Some resolve) (Some reject') q s)
  /\ (forall error s',
        QueryBuilder.exec fetch q s = (Throw error, s') ->
        QueryBuilder.then_ fetch (Some resolve) (Some reject) q s
        = reject error s').
Proof.
  split; [apply then_passes_on|].
  unfold QueryBuilder.then_. split.
  - intros results s' ->. split; reflexivity.
  - intros error s' ->. reflexivity.
Qed.

Lemma X4_then_hands_the_outcome_of_exec_witness :
  let refused :=
    Fixture.canned (Fixture.answer (envelope false VNull "No such table")) in
  QueryBuilder.then_ refused (Some ret)
    (Some (fun error => ret (VArr []))) Fixture.fresh Fixture.start
  = (Normal (VArr []),
     snd (QueryBuilder.exec refused Fixture.fresh Fixture.start)).
Proof.
  intros refused.
  exact (proj2 (proj2
    (X4_then_hands_the_outcome_of_exec refused Fixture.fresh Fixture.start
       ret (fun error => ret (VArr [])) throw))
    (Error (VStr "No such table")) _ eq_refl).
Defined.

(** ** Failures of an exchange *)

Section ExchangeFailures.
Context {World : Type}.
Variable fetch : Request -> World -> completion Response * World.

Lemma exchange_refused (st : string) (r : Request) (failure : string)
  (s : State World) :
  refuses_with fetch st ->
  exists s',
    DBConnection.cleanFetch (DBConnection.fetchFn fetch r failure) s
    = (Throw (Error (VStr (failure ++ st))), s').
Proof.
  intros Hr. destruct (Hr r (world s)) as (parsed & w' & Hf).
  eexists. unfold DBConnection.cleanFetch, DBConnection.fetchFn, bind,
    do_fetch. rewrite Hf. reflexivity.
Qed.

Lemma exchange_broken (e : exn) (r : Request) (failure : string)
  (s : State World) :
  breaks_with fetch e ->
  exists s',
    DBConnection.cleanFetch (DBConnection.fetchFn fetch r failure) s
    = (Throw e, s').
Proof.
  intros Hb.
  destruct (Hb r (world s)) as [(w' & Hf)|(st & w' & Hf)];
    eexists; unfold DBConnection.cleanFetch, DBConnection.fetchFn, bind,
      do_fetch; rewrite Hf; reflexivity.
Qed.

Lemma exchange_settled (parsed : value) (r : Request) (failure : string)
  (s : State World) :
  answers_with fetch parsed ->
  exists s',
    DBConnection.cleanFetch (DBConnection.fetchFn fetch r failure) s
    = (settled parsed, s').
Proof.
  intros Ha. destruct (Ha r (world s)) as (st & w' & Hf).
  eexists. unfold DBConnection.cleanFetch, DBConnection.fetchFn, bind,
    do_fetch, settled, get_prop, lift, throw. rewrite Hf. cbn.
  destruct (nullish parsed); [reflexivity|].
  destruct (truthy (prop parsed "success")); reflexivity.
Qed.
End ExchangeFailures.

(** Brings a model operation on objects to the exchange it starts with. *)
Ltac enter_model :=
  unfold DBModel.create, DBModel.insertMany, DBModel.findById,
    DBModel.findOne, DBModel.updateOne, DBModel.findByIdAndUpdate,
    DBModel.findOneAndUpdate, DBModel.updateMany, DBModel.deleteOne,
    DBModel.findByIdAndDelete, DBModel.findOneAndDelete, DBModel.deleteMany,
    DBModel.countDocuments, DBModel.exists_;
  try match goal with
      | |- context [DBModel._prepareFields (VObj ?d)] =>
          destruct (prepare_object d) as [? ->]; rewrite bind_lift_normal
      | |- context [DBModel.prepare_all (map VObj ?ds)] =>
          destruct (prepare_all_objects ds) as [? ->];
          rewrite bind_lift_normal
      | |- context [DBModel.find (VObj ?fs) ?m] =>
          destruct (find_object fs m) as [? ->]; rewrite bind_lift_normal
      end;
  unfold_connection.

(** Closes [fst (op s) = Throw _] from a lemma [L] on the exchange. *)
Ltac thrown_by L :=
  enter_model;
  match goal with
  | |- fst (DBConnection.cleanFetch (DBConnection.fetchFn _ ?r ?f) ?s) = _ =>
      let H := fresh "H" in
      destruct (L r f s) as [? H]; rewrite H; reflexivity
  | |- fst (bind (DBConnection.cleanFetch (DBConnection.fetchFn _ ?r ?f))
              _ ?s) = _ =>
      let H := fresh "H" in
      destruct (L r f s) as [? H];
      rewrite (bind_throw _ _ _ _ _ H); reflexivity
  end.

(** X5. When the response is not [ok], every method of the connection
    throws an error whose message is the method's own prefix followed by
    the status text; the body is not looked at.  [exec] and the operations
    of the model fail with the error of the method they call. *)
Theorem X5_status_failures_carry_the_method_prefix {World : Type}
  (fetch : Request -> World -> completion Response * World) (st : string)
  (c : DBConnection.t) (t : string) (a b options : value) (qp : QueryParams)
  (q : QueryBuilder.t) (m : DBModel.t) (d fs : obj) (ds : list obj)
  (s : State World) :
  refuses_with fetch st ->
  Forall
    (fun call : M World value * string =>
       fst (fst call s) = Throw (Error (VStr (snd call ++ st))))
    [(DBConnection.insertOne fetch c t a, "Failed to insert record: ");
     (DBConnection.insertMany fetch c t a, "Failed to insert records: ");
     (DBConnection.query fetch c t qp, "Failed to query records: ");
     (DBConnection.updateById fetch c t a b, "Failed to update record: ");
     (DBConnection.updateOne fetch c t a b, "Failed to update record: ");
     (DBConnection.updateMany fetch c t a b, "Failed to update records: ");
     (DBConnection.deleteById fetch c t a, "Failed to delete record: ");
     (DBConnection.deleteOne fetch c t a, "Failed to delete record: ");
     (DBConnection.deleteMany fetch c t a, "Failed to delete records: ");
     (DBConnection.count fetch c t a, "Failed to count records: ");
     (DBConnection.exists_ fetch c t a,
      "Failed to check if record exists: ");
     (QueryBuilder.exec fetch q, "Failed to query records: ");
     (DBModel.create fetch (VObj d) m, "Failed to insert record: ");
     (DBModel.insertMany fetch (map VObj ds) m, "Failed to insert records: ");
     (DBModel.findOne fetch (VObj fs) m, "Failed to query records: ");
     (DBModel.findById fetch a m, "Failed to query records: ");
     (DBModel.updateOne fetch a (VObj d) m, "Failed to update record: ");
     (DBModel.findByIdAndUpdate fetch a (VObj d) options m,
      "Failed to update record: ");
     (DBModel.findOneAndUpdate fetch a (VObj d) m,
      "Failed to update record: ");
     (DBModel.updateMany fetch a (VObj d) m, "Failed to update records: ");
     (DBModel.deleteOne fetch a m, "Failed to delete record: ");
     (DBModel.findByIdAndDelete fetch a m, "Failed to delete record: ");
     (DBModel.findOneAndDelete fetch a m, "Failed to delete record: ");
     (DBModel.deleteMany fetch a m, "Failed to delete records: ");
     (DBModel.countDocuments fetch a m, "Failed to count records: ");
     (DBModel.exists_ fetch a m, "Failed to check if record exists: ")].
Proof.
  intros Hr. pose proof (exchange_refused fetch st) as L.
  repeat apply Forall_cons; try apply Forall_nil; cbn [fst snd];
    thrown_by (fun r f s => L r f s Hr).
Qed.

Lemma canned_refuses (st : string) (parsed : completion value) :
  refuses_with (Fixture.canned (mkResponse false st parsed)) st.
Proof. intros r w. exists parsed, w. reflexivity. Qed.

(** A 404 whose body would have been a success envelope. *)
Lemma X5_status_failures_carry_the_method_prefix_witness :
  let fetch :=
    Fixture.canned
      (mkResponse false "Not Found" (Normal (envelope true (VArr []) ""))) in
  fst (QueryBuilder.exec fetch Fixture.scenario_B Fixture.start)
  = Throw (Error (VStr "Failed to query records: Not Found"))
  /\ fst (DBModel.exists_ fetch (VObj [("id", VNum 7)]) Fixture.users
            Fixture.start)
     = Throw (Error (VStr "Failed to check if record exists: Not Found")).
Proof.
  intros fetch.
  pose proof
    (X5_status_failures_carry_the_method_prefix fetch "Not Found"
       Fixture.conn "users" (VObj [("id", VNum 7)]) VNull VUndefined
       (QueryBuilder.queryParams Fixture.fresh) Fixture.scenario_B
       Fixture.users [] [] [] Fixture.start (canned_refuses _ _)) as H.
  split.
  - do 11 apply Forall_inv_tail in H. exact (Forall_inv H).
  - do 25 apply Forall_inv_tail in H. exact (Forall_inv H).
Defined.

(** X6. An exception raised by [fetch], or by parsing the body of an [ok]
    response, reaches the caller of every connection method, of [exec] and
    of every model operation as it was raised. *)
Theorem X6_transport_exceptions_pass_unchanged {World : Type}
  (fetch : Request -> World -> completion Response * World) (e : exn)
  (c : DBConnection.t) (t : string) (a b options : value) (qp : QueryParams)
  (q : QueryBuilder.t) (m : DBModel.t) (d fs : obj) (ds : list obj)
  (s : State World) :
  breaks_with fetch e ->
  Forall
    (fun op : M World value => fst (op s) = Throw e)
    [DBConnection.insertOne fetch c t a;
     DBConnection.insertMany fetch c t a;
     DBConnection.query fetch c t qp;
     DBConnection.updateById fetch c t a b;
     DBConnection.updateOne fetch c t a b;
     DBConnection.updateMany fetch c t a b;
     DBConnection.deleteById fetch c t a;
     DBConnection.deleteOne fetch c t a;
     DBConnection.deleteMany fetch c t a;
     DBConnection.count fetch c t a;
     DBConnection.exists_ fetch c t a;
     QueryBuilder.exec fetch q;
     QueryBuilder.then_ fetch None None q;
     DBModel.create fetch (VObj d) m;
     DBModel.insertMany fetch (map VObj ds) m;
     DBModel.findOne fetch (VObj fs) m;
     DBModel.findById fetch a m;
     DBModel.updateOne fetch a (VObj d) m;
     DBModel.findByIdAndUpdate fetch a (VObj d) options m;
     DBModel.findOneAndUpdate fetch a (VObj d) m;
     DBModel.updateMany fetch a (VObj d) m;
     DBModel.deleteOne fetch a m;
     DBModel.findByIdAndDelete fetch a m;
     DBModel.findOneAndDelete fetch a m;
     DBModel.deleteMany fetch a m;
     DBModel.countDocuments fetch a m;
     DBModel.exists_ fetch a m].
Proof.
  intros Hb. pose proof (exchange_broken fetch e) as L.
  repeat apply Forall_cons; try apply Forall_nil;
    try rewrite then_passes_on;
    thrown_by (fun r f s => L r f s Hb).
Qed.

Lemma X6_transport_exceptions_pass_unchanged_witness :
  let offline : Request -> unit -> completion Response * unit :=
    fun _ w => (Throw TypeError, w) in
  let garbled := Fixture.canned (mkResponse true "OK" (Throw SyntaxError)) in
  fst (DBModel.findOne offline (VObj [("id", VNum 7)]) Fixture.users
         Fixture.start) = Throw TypeError
  /\ fst (DBModel.deleteMany garbled (VObj []) Fixture.users Fixture.start)
     = Throw SyntaxError.
Proof.
  intros offline garbled.
  assert (breaks_with offline TypeError) as Hoff.
  { intros r w. left. exists w. reflexivity. }
  assert (breaks_with garbled SyntaxError) as Hgar.
  { intros r w. right. exists "OK", w. reflexivity. }
  pose proof
    (X6_transport_exceptions_pass_unchanged offline TypeError Fixture.conn
       "users" (VObj []) VNull VUndefined
       (QueryBuilder.queryParams Fixture.fresh) Fixture.fresh Fixture.users
       [] [("id", VNum 7)] [] Fixture.start Hoff) as H1.
  pose proof
    (X6_transport_exceptions_pass_unchanged garbled SyntaxError Fixture.conn
       "users" (VObj []) VNull VUndefined
       (QueryBuilder.queryParams Fixture.fresh) Fixture.fresh Fixture.users
       [] [] [] Fixture.start Hgar) as H2.
  split.
  - do 15 apply Forall_inv_tail in H1. exact (Forall_inv H1).
  - do 24 apply Forall_inv_tail in H2. exact (Forall_inv H2).
Defined.

(** X7. Over an [ok] response with any parsed body, every method of the
    connection decides by the truthiness of the body's [success] member:
    when it is truthy the method returns the [data] member (undefined when
    the body has none); otherwise, also when [success] is missing, it
    throws an error made from the [message] member (from undefined when the
    body has none).  A body that is null makes the method raise a
    TypeError. *)
Theorem X7_any_body_is_settled_by_truthiness {World : Type}
  (fetch : Request -> World -> completion Response * World) (parsed : value)
  (c : DBConnection.t) (t : string) (a b : value) (qp : QueryParams)
  (s : State World) :
  answers_with fetch parsed ->
  Forall
    (fun op : M World value =>
       fst (op s)
       = if nullish parsed then Throw TypeError
         else if truthy (prop parsed "success")
              then Normal (prop parsed "data")
              else Throw (Error (prop parsed "message")))
    [DBConnection.insertOne fetch c t a;
     DBConnection.insertMany fetch c t a;
     DBConnection.query fetch c t qp;
     DBConnection.updateById fetch c t a b;
     DBConnection.updateOne fetch c t a b;
     DBConnection.updateMany fetch c t a b;
     DBConnection.deleteById fetch c t a;
     DBConnection.deleteOne fetch c t a;
     DBConnection.deleteMany fetch c t a;
     DBConnection.count fetch c t a;
     DBConnection.exists_ fetch c t a].
Proof.
  intros Ha. pose proof (exchange_settled fetch parsed) as L.
  repeat apply Forall_cons; try apply Forall_nil; unfold_connection;
    match goal with
    | |- fst (DBConnection.cleanFetch (DBConnection.fetchFn _ ?r ?f) ?s)
         = _ =>
        destruct (L r f s Ha) as [? H]; rewrite H; reflexivity
    end.
Qed.

Lemma X7_any_body_is_settled_by_truthiness_witness :
  fst (DBConnection.count
         (Fixture.canned (Fixture.answer (VObj [("success", VNum 1)])))
         Fixture.conn "users" (VObj []) Fixture.start)
  = Normal VUndefined
  /\ fst (DBConnection.count
            (Fixture.canned (Fixture.answer (VObj [("data", VNum 3)])))
            Fixture.conn "users" (VObj []) Fixture.start)
     = Throw (Error VUndefined)
  /\ fst (DBConnection.count (Fixture.canned (Fixture.answer VNull))
            Fixture.conn "users" (VObj []) Fixture.start)
     = Throw TypeError.
Proof.
  pose proof
    (fun parsed =>
       X7_any_body_is_settled_by_truthiness
         (Fixture.canned (Fixture.answer parsed)) parsed Fixture.conn "users"
         (VObj []) VNull (QueryBuilder.queryParams Fixture.fresh)
         Fixture.start (canned_answers parsed)) as H.
  split; [|split].
  - pose proof (H (VObj [("success", VNum 1)])) as H1.
    do 9 apply Forall_inv_tail in H1. exact (Forall_inv H1).
  - pose proof (H (VObj [("data", VNum 3)])) as H1.
    do 9 apply Forall_inv_tail in H1. exact (Forall_inv H1).
  - pose proof (H VNull) as H1.
    do 9 apply Forall_inv_tail in H1. exact (Forall_inv H1).
Defined.

(** ** Counting requests *)

Section Counting.
Context {World : Type}.

Lemma at_most_ret {A : Type} (a : A) : at_most 0 (@ret World A a).
Proof. intros s. exists []. split; [now rewrite app_nil_r|cbn; lia]. Qed.

Lemma at_most_throw {A : Type} (e : exn) : at_most 0 (@throw World A e).
Proof. intros s. exists []. split; [now rewrite app_nil_r|cbn; lia]. Qed.

Lemma at_most_lift {A : Type} (c : completion A) : at_most 0 (@lift World A c).
Proof. intros s. exists []. split; [now rewrite app_nil_r|cbn; lia]. Qed.

Lemma at_most_bind {A B : Type} (n1 n2 : nat) (m : M World A)
  (k : A -> M World B) :
  at_most n1 m -> (forall a, at_most n2 (k a)) ->
  at_most (n1 + n2) (bind m k).
Proof.
  intros Hm Hk s. destruct (Hm s) as (rs1 & E1 & L1). unfold bind.
  destruct (m s) as [[a|e] s1]; cbn [snd] in *.
  - destruct (Hk a s1) as (rs2 & E2 & L2). exists (rs1 ++ rs2)%list.
    rewrite E2, E1, <- app_assoc, length_app. split; [reflexivity|lia].
  - exists rs1. split; [exact E1|lia].
Qed.

Lemma at_most_mono {A : Type} (n n' : nat) (op : M World A) :
  at_most n op -> (n <= n')%nat -> at_most n' op.
Proof.
  intros H Hle s. destruct (H s) as (rs & E & L). exists rs.
  split; [exact E|lia].
Qed.

Lemma at_most_exchange
  (fetch : Request -> World -> completion Response * World)
  (r : Request) (failure : string) :
  at_most 1 (DBConnection.cleanFetch (DBConnection.fetchFn fetch r failure)).
Proof.
  intros s. exists [r]. split; [apply exchange_sent|cbn; lia].
Qed.
End Counting.

Ltac tally :=
  repeat first
    [ apply at_most_exchange
    | apply at_most_ret
    | apply at_most_lift
    | apply at_most_throw
    | apply at_most_bind; [|intros ?] ].

Ltac at_most_one :=
  unfold DBModel.create, DBModel.insertMany, DBModel.findById,
    DBModel.findOne, DBModel.updateOne, DBModel.findOneAndUpdate,
    DBModel.updateMany, DBModel.deleteOne, DBModel.findByIdAndDelete,
    DBModel.findOneAndDelete, DBModel.deleteMany, DBModel.countDocuments,
    DBModel.exists_;
  unfold_connection;
  eapply at_most_mono; [tally | cbn; lia].

(** X8. No operation repeats a request.  Whatever its arguments and
    whatever the transport answers, a method of the connection, [exec], and
    every operation of the model but one sends at most one request;
    [findByIdAndUpdate] sends at most two. *)
Theorem X8_no_operation_repeats_a_request {World : Type}
  (fetch : Request -> World -> completion Response * World)
  (c : DBConnection.t) (t : string) (a b options : value) (qp : QueryParams)
  (q : QueryBuilder.t) (m : DBModel.t) (dataArray : list value) :
  Forall (at_most 1)
    [DBConnection.insertOne fetch c t a;
     DBConnection.insertMany fetch c t a;
     DBConnection.query fetch c t qp;
     DBConnection.updateById fetch c t a b;
     DBConnection.updateOne fetch c t a b;
     DBConnection.updateMany fetch c t a b;
     DBConnection.deleteById fetch c t a;
     DBConnection.deleteOne fetch c t a;
     DBConnection.deleteMany fetch c t a;
     DBConnection.count fetch c t a;
     DBConnection.exists_ fetch c t a;
     QueryBuilder.exec fetch q;
     DBModel.create fetch a m;
     DBModel.insertMany fetch dataArray m;
     DBModel.findOne fetch a m;
     DBModel.findById fetch a m;
     DBModel.updateOne fetch a b m;
     DBModel.findOneAndUpdate fetch a b m;
     DBModel.updateMany fetch a b m;
     DBModel.deleteOne fetch a m;
     DBModel.findByIdAndDelete fetch a m;
     DBModel.findOneAndDelete fetch a m;
     DBModel.deleteMany fetch a m;
     DBModel.countDocuments fetch a m;
     DBModel.exists_ fetch a m]
  /\ at_most 2 (DBModel.findByIdAndUpdate fetch a b options m).
Proof.
  split.
  - repeat apply Forall_cons; try apply Forall_nil; at_most_one.
  - unfold DBModel.findByIdAndUpdate.
    eapply at_most_mono with (n := (0 + (1 + (0 + 1)))%nat); [|cbn; lia].
    apply at_most_bind; [apply at_most_lift|intros fields].
    apply at_most_bind; [unfold_connection; apply at_most_exchange|].
    intros result.
    apply at_most_bind; [apply at_most_lift|intros new].
    destruct (truthy new).
    + at_most_one.
    + eapply at_most_mono; [apply at_most_ret|lia].
Qed.

(** ** A success without data *)

Ltac silent := intros ? ?; unfold bind, lift, ret; crack; reflexivity.

Lemma sends_exchange {World : Type}
  (fetch : Request -> World -> completion Response * World)
  (r : Request) (failure : string) (s : State World) :
  sends (DBConnection.cleanFetch (DBConnection.fetchFn fetch r failure)) s [r].
Proof. apply exchange_sent. Qed.

Lemma sends_bind_silent {World A B : Type} (m : M World A)
  (k : A -> M World B) (s : State World) (rs : list Request) :
  sent (snd (m s)) = (sent s ++ rs)%list ->
  (forall a s1, snd (k a s1) = s1) ->
  sent (snd (bind m k s)) = (sent s ++ rs)%list.
Proof. intros Hm Hk. now rewrite snd_bind_silent. Qed.

(** Closes [fst (op s) = Throw TypeError /\ exists r, sends op s [r]] for an
    operation that reads a member of missing data. *)
Ltac reads_missing_data L Hd :=
  unfold sends; enter_model;
  match goal with
  | |- fst (bind (DBConnection.cleanFetch (DBConnection.fetchFn _ ?r ?f))
              _ ?s) = _ /\ _ =>
      let H := fresh "H" in
      destruct (L r f s) as [? H]; split;
      [ rewrite (bind_normal _ _ _ _ _ H);
        unfold bind, lift, get_prop; rewrite Hd; reflexivity
      | exists r; apply sends_bind_silent; [apply exchange_sent|silent] ]
  end.

(** X9. Over a transport whose success body has no [data] (or a null one),
    the operations that read a member of the data raise a TypeError, after
    their request has been sent: [findOne], [findById], [updateOne],
    [updateMany], [deleteOne], [deleteMany], [countDocuments] and [exists].
    The operations that hand the data on return it as it is. *)
Theorem X9_success_without_data {World : Type}
  (fetch : Request -> World -> completion Response * World) (parsed : value)
  (m : DBModel.t) (a : value) (d fs : obj) (s : State World) :
  answers_with fetch parsed ->
  nullish parsed = false ->
  truthy (prop parsed "success") = true ->
  nullish (prop parsed "data") = true ->
  Forall
    (fun op : M World value =>
       fst (op s) = Throw TypeError /\ exists r, sends op s [r])
    [DBModel.findOne fetch (VObj fs) m;
     DBModel.findById fetch a m;
     DBModel.updateOne fetch a (VObj d) m;
     DBModel.updateMany fetch a (VObj d) m;
     DBModel.deleteOne fetch a m;
     DBModel.deleteMany fetch a m;
     DBModel.countDocuments fetch a m;
     DBModel.exists_ fetch a m]
  /\ Forall
       (fun op : M World value => fst (op s) = Normal (prop parsed "data"))
       [DBModel.create fetch (VObj d) m;
        DBModel.findOneAndUpdate fetch a (VObj d) m;
        DBModel.findByIdAndDelete fetch a m;
        DBModel.findOneAndDelete fetch a m].
Proof.
  intros Ha Hp Hs Hd.
  assert (forall r f s0, exists s',
             DBConnection.cleanFetch (DBConnection.fetchFn fetch r f) s0
             = (Normal (prop parsed "data"), s')) as L.
  { intros r f s0. destruct (exchange_settled fetch parsed r f s0 Ha) as [s' H].
    exists s'. rewrite H. unfold settled. now rewrite Hp, Hs. }
  split.
  - repeat apply Forall_cons; try apply Forall_nil; reads_missing_data L Hd.
  - repeat apply Forall_cons; try apply Forall_nil; enter_model;
      match goal with
      | |- fst (DBConnection.cleanFetch (DBConnection.fetchFn _ ?r ?f) ?s)
           = _ =>
          destruct (L r f s) as [? H]; rewrite H; reflexivity
      end.
Qed.

(** The body [{success: true}] answering an update and a count. *)
Lemma X9_success_without_data_witness :
  let fetch :=
    Fixture.canned (Fixture.answer (VObj [("success", VBool true)])) in
  fst (DBModel.updateOne fetch (VObj [("id", VNum 7)])
         (VObj [("age", VNum 32)]) Fixture.users Fixture.start)
  = Throw TypeError
  /\ fst (DBModel.countDocuments fetch VUndefined Fixture.users Fixture.start)
     = Throw TypeError
  /\ fst (DBModel.create fetch (VObj [("age", VNum 32)]) Fixture.users
            Fixture.start)
     = Normal VUndefined.
Proof.
  intros fetch.
  pose proof
    (X9_success_without_data fetch (VObj [("success", VBool true)])
       Fixture.users (VObj [("id", VNum 7)]) [("age", VNum 32)] []
       Fixture.start (canned_answers _) eq_refl eq_refl eq_refl)
    as [Hread Hpass].
  pose proof
    (X9_success_without_data fetch (VObj [("success", VBool true)])
       Fixture.users VUndefined [] [] Fixture.start (canned_answers _)
       eq_refl eq_refl eq_refl)
    as [Hcount _].
  split; [|split].
  - do 2 apply Forall_inv_tail in Hread. exact (proj1 (Forall_inv Hread)).
  - do 6 apply Forall_inv_tail in Hcount. exact (proj1 (Forall_inv Hcount)).
  - exact (Forall_inv Hpass).
Defined.

(** ** findOne *)

(** X10. [findOne] and [findById] return the first element of the results
    only when it is truthy: a list that starts with null, [0], the empty
    string or [false] gives null, as an empty list does. *)
Theorem X10_findOne_drops_a_falsy_first_element {World : Type}
  (fetch : Request -> World -> completion Response * World)
  (m : DBModel.t) (filters : value) (query : QueryBuilder.t)
  (first : value) (rest : list value) (s s' : State World) :
  DBModel.find filters m = Normal query ->
  QueryBuilder.exec fetch (QueryBuilder.limit (VNum 1) query) s
  = (Normal (VArr (first :: rest)), s') ->
  DBModel.findOne fetch filters m s
  = (Normal (if truthy first then first else VNull), s').
Proof.
  intros Hf He.
  exact (findOne_first_or_null fetch m filters query (first :: rest) s s'
           Hf He).
Qed.

Lemma X10_findOne_drops_a_falsy_first_element_witness :
  let fetch :=
    Fixture.canned
      (Fixture.answer (envelope true (VArr [VNum 0; VObj []]) "")) in
  fst (DBModel.findOne fetch VUndefined Fixture.users Fixture.start)
  = Normal VNull.
Proof.
  intros fetch.
  exact (f_equal fst
    (X10_findOne_drops_a_falsy_first_element fetch Fixture.users VUndefined
       Fixture.fresh (VNum 0) [VObj []] Fixture.start
       (snd (DBModel.findOne fetch VUndefined Fixture.users Fixture.start))
       eq_refl eq_refl)).
Defined.

Lemma findOne_request {World : Type}
  (fetch : Request -> World -> completion Response * World)
  (m : DBModel.t) (fs : obj) (s : State World) :
  own_order (map fst fs) = true ->
  sent (snd (DBModel.findOne fetch (VObj fs) m s))
  = (sent s ++ [one_record_request m fs])%list.
Proof.
  intros Ho. unfold DBModel.findOne. rewrite (find_ordered m fs Ho).
  rewrite bind_lift_normal. rewrite sends_bind_silent with (rs :=
    [mkRequest "GET"
       (DBConnection.baseURL (DBModel.apiClient m) ++ "/collections/"
        ++ DBModel.collectionName m ++ "/records")
       (Some (serialize
                (QueryBuilder.limit (VNum 1)
                   (QueryBuilder.mk (DBModel.collectionName m)
                      (DBModel.apiClient m) (recorded fs)
                      (VObj []) VNull (VNum 0) VNull []))))
       (DBConnection.headers (DBModel.apiClient m)) None]).
  - unfold one_record_request. destruct (recorded fs); reflexivity.
  - apply exchange_sent.
  - silent.
Qed.

(** X11. For a filter object, [findOne] sends one GET on the records of the
    collection whose search parameters are the filters, every member but
    one named [__proto__] wrapped as an equality, in the order of the
    object's keys, and [limit] 1; when no member is recorded, as for an
    empty object or when no filters are given, [limit] 1 is the only
    parameter. *)
Theorem X11_findOne_asks_for_one_record {World : Type}
  (fetch : Request -> World -> completion Response * World)
  (m : DBModel.t) (fs : obj) (s : State World) :
  own_order (map fst fs) = true ->
  sends (DBModel.findOne fetch (VObj fs) m) s
    [mkRequest "GET"
       (DBConnection.baseURL (DBModel.apiClient m) ++ "/collections/"
        ++ DBModel.collectionName m ++ "/records")
       (Some
          match recorded fs with
          | [] => [("limit", AsIs (VNum 1))]
          | _ :: _ =>
              [("filters", JSON_stringify (VObj (recorded fs)));
               ("limit", AsIs (VNum 1))]
          end)
       (DBConnection.headers (DBModel.apiClient m)) None]
  /\ DBModel.findOne fetch VUndefined m s = DBModel.findOne fetch (VObj []) m s.
Proof.
  intros Ho. split; [|reflexivity]. exact (findOne_request fetch m fs s Ho).
Qed.

Lemma X11_findOne_asks_for_one_record_witness :
  let fetch := Fixture.canned (Fixture.answer (envelope true (VArr []) "")) in
  sent (snd (DBModel.findOne fetch (VObj [("email", VStr "jo@x.com")])
               Fixture.users Fixture.start))
  = [mkRequest "GET" "/api/v1/site-1/collections/users/records"
       (Some [("filters",
               JSON_stringify
                 (VObj [("email", VObj [("$eq", VStr "jo@x.com")])]));
              ("limit", AsIs (VNum 1))])
       (DBConnection.headers Fixture.conn) None].
Proof.
  intros fetch.
  exact (proj1
    (X11_findOne_asks_for_one_record fetch Fixture.users
       [("email", VStr "jo@x.com")] Fixture.start eq_refl)).
Defined.

(** ** Writes *)

Lemma prepare_throws_only_TypeError (data : value) (e : exn) :
  DBModel._prepareFields data = Throw e -> e = TypeError.
Proof.
  unfold DBModel._prepareFields, Object_keys.
  destruct (nullish data); cbn [cbind]; congruence.
Qed.

Lemma prepare_all_distinct (ds : list obj) :
  forallb (fun d => distinct (map fst d)) ds = true ->
  DBModel.prepare_all (map VObj ds)
  = Normal (map (fun d => VArr (map field_pair d)) ds).
Proof.
  induction ds as [|d r IH]; cbn [forallb map DBModel.prepare_all];
    [reflexivity|].
  intros H. apply andb_true_iff in H as [Hd Hr].
  now rewrite (prepare_distinct d Hd), (IH Hr).
Qed.

Lemma prepare_all_nullish (dataArray : list value) :
  existsb nullish dataArray = true ->
  DBModel.prepare_all dataArray = Throw TypeError.
Proof.
  induction dataArray as [|x r IH]; cbn [existsb DBModel.prepare_all];
    [discriminate|].
  intros H. destruct (nullish x) eqn:Hx.
  - now rewrite (prepare_nullish x Hx).
  - cbn [orb] in H. rewrite (IH H).
    destruct (DBModel._prepareFields x) as [fields|e] eqn:E; cbn [cbind];
      [reflexivity|].
    now rewrite (prepare_throws_only_TypeError x e E).
Qed.

(** X12. [create] with a document sends one POST on the records of the
    collection whose body is [{fields}], the members of the document in
    their order as [{field_name, field_value}]; with null or undefined it
    raises a TypeError and sends nothing. *)
Theorem X12_create_sends_the_members {World : Type}
  (fetch : Request -> World -> completion Response * World)
  (m : DBModel.t) (s : State World) :
  (forall d : obj,
      distinct (map fst d) = true ->
      sends (DBModel.create fetch (VObj d) m) s
        [mkRequest "POST"
           (DBConnection.baseURL (DBModel.apiClient m) ++ "/collections/"
            ++ DBModel.collectionName m ++ "/records")
           None (DBConnection.headers (DBModel.apiClient m))
           (Some (JSON_stringify
                    (VObj [("fields", VArr (map field_pair d))])))])
  /\ (forall data : value,
        nullish data = true ->
        DBModel.create fetch data m s = (Throw TypeError, s)).
Proof.
  split.
  - intros d Hd. unfold sends, DBModel.create.
    rewrite (prepare_distinct d Hd), bind_lift_normal.
    apply exchange_sent.
  - intros data Hn. unfold DBModel.create.
    now rewrite (prepare_nullish data Hn).
Qed.

(** Scenario A of the specification. *)
Lemma X12_create_sends_the_members_witness :
  let fetch := Fixture.canned (Fixture.answer (envelope true VNull "")) in
  sent (snd (DBModel.create fetch
               (VObj [("name", VStr "Jo"); ("age", VNum 30)])
               Fixture.users Fixture.start))
  = [mkRequest "POST" "/api/v1/site-1/collections/users/records" None
       (DBConnection.headers Fixture.conn)
       (Some (JSON_stringify
                (VObj [("fields",
                        VArr [VObj [("field_name", VStr "name");
                                    ("field_value", VStr "Jo")];
                              VObj [("field_name", VStr "age");
                                    ("field_value", VNum 30)]])])))]
  /\ DBModel.create fetch VUndefined Fixture.users Fixture.start
     = (Throw TypeError, Fixture.start).
Proof.
  intros fetch.
  pose proof (X12_create_sends_the_members fetch Fixture.users Fixture.start)
    as [Hsend Hnull].
  split.
  - exact (Hsend [("name", VStr "Jo"); ("age", VNum 30)] eq_refl).
  - exact (Hnull VUndefined eq_refl).
Defined.

(** X13. [insertMany] with a list of documents sends one POST on
    [records/bulk] whose body is [{records}], one list of
    [{field_name, field_value}] per document, in the order of the
    documents; when some element of the list is null or undefined it raises
    a TypeError and sends nothing, not even the documents that precede
    it. *)
Theorem X13_insertMany_sends_all_or_nothing {World : Type}
  (fetch : Request -> World -> completion Response * World)
  (m : DBModel.t) (s : State World) :
  (forall ds : list obj,
      forallb (fun d => distinct (map fst d)) ds = true ->
      sends (DBModel.insertMany fetch (map VObj ds) m) s
        [mkRequest "POST"
           (DBConnection.records (DBModel.apiClient m)
              (DBModel.collectionName m) ++ "/bulk")
           None (DBConnection.headers (DBModel.apiClient m))
           (Some (JSON_stringify
                    (VObj [("records",
                            VArr (map (fun d => VArr (map field_pair d))
                                    ds))])))])
  /\ (forall dataArray : list value,
        existsb nullish dataArray = true ->
        DBModel.insertMany fetch dataArray m s = (Throw TypeError, s)).
Proof.
  split.
  - intros ds Hd. unfold sends, DBModel.insertMany.
    rewrite (prepare_all_distinct ds Hd), bind_lift_normal.
    apply exchange_sent.
  - intros dataArray Hn. unfold DBModel.insertMany.
    now rewrite (prepare_all_nullish dataArray Hn).
Qed.

Lemma X13_insertMany_sends_all_or_nothing_witness :
  let fetch := Fixture.canned (Fixture.answer (envelope true (VArr []) "")) in
  sent (snd (DBModel.insertMany fetch
               [VObj [("name", VStr "Jo")]; VObj [("name", VStr "Al")]]
               Fixture.users Fixture.start))
  = [mkRequest "POST" "/api/v1/site-1/collections/users/records/bulk" None
       (DBConnection.headers Fixture.conn)
       (Some (JSON_stringify
                (VObj [("records",
                        VArr [VArr [VObj [("field_name", VStr "name");
                                          ("field_value", VStr "Jo")]];
                              VArr [VObj [("field_name", VStr "name");
                                          ("field_value", VStr "Al")]]])])))]
  /\ DBModel.insertMany fetch [VObj [("name", VStr "Jo")]; VNull]
       Fixture.users Fixture.start
     = (Throw TypeError, Fixture.start).
Proof.
  intros fetch.
  pose proof
    (X13_insertMany_sends_all_or_nothing fetch Fixture.users Fixture.start)
    as [Hsend Hnull].
  split.
  - exact (Hsend [[("name", VStr "Jo")]; [("name", VStr "Al")]] eq_refl).
  - exact (Hnull [VObj [("name", VStr "Jo")]; VNull] eq_refl).
Defined.

(** ** Update by identifier *)

(** Takes the first step of a sequence whose outcome [H] states. *)
Ltac step_with H := unfold bind at 1; rewrite H; cbv beta iota.

(** X14. For an identifier that is a string or a safe integer,
    [findByIdAndUpdate] first sends the PATCH of [updateById].  When
    that fails the error is the outcome and nothing more is sent.  When it
    succeeds and [options.new] is truthy, the operation goes on as
    [findById] does, which sends the GET for one record whose [id] equals
    the identifier, after the PATCH; when [options.new] is falsy or the
    options are omitted, the result of the update is returned and the PATCH
    is the only request. *)
Theorem X14_findByIdAndUpdate_refetches_on_demand {World : Type}
  (fetch : Request -> World -> completion Response * World)
  (m : DBModel.t) (id updateData fields options : value)
  (s s1 : State World) :
  let patch :=
    mkRequest "PATCH"
      (DBConnection.records (DBModel.apiClient m) (DBModel.collectionName m)
       ++ "/" ++ ToString id)
      None (DBConnection.headers (DBModel.apiClient m))
      (Some (JSON_stringify (VObj [("fields", fields)]))) in
  let update :=
    DBConnection.updateById fetch (DBModel.apiClient m)
      (DBModel.collectionName m) id fields in
  plain_id id = true ->
  DBModel._prepareFields updateData = Normal fields ->
  (forall e, update s = (Throw e, s1) ->
     DBModel.findByIdAndUpdate fetch id updateData options m s
     = (Throw e, s1)
     /\ sent s1 = (sent s ++ [patch])%list)
  /\ (forall result, update s = (Normal result, s1) ->
      truthy (prop (default options (VObj [])) "new") = true ->
      DBModel.findByIdAndUpdate fetch id updateData options m s
      = DBModel.findById fetch id m s1
      /\ sends (DBModel.findByIdAndUpdate fetch id updateData options m) s
           [patch; one_record_request m [("id", id)]])
  /\ (forall result, update s = (Normal result, s1) ->
      nullish options = false \/ options = VUndefined ->
      truthy (prop (default options (VObj [])) "new") = false ->
      DBModel.findByIdAndUpdate fetch id updateData options m s
      = (Normal result, s1)
      /\ sent s1 = (sent s ++ [patch])%list).
Proof.
  intros patch update _ Hp. subst update.
  assert (forall c,
             DBConnection.updateById fetch (DBModel.apiClient m)
               (DBModel.collectionName m) id fields s = (c, s1) ->
             sent s1 = (sent s ++ [patch])%list)
    as Hsent.
  { intros c Hu. change s1 with (snd (c, s1)). rewrite <- Hu.
    apply exchange_sent. }
  unfold sends, DBModel.findByIdAndUpdate. rewrite Hp, bind_lift_normal.
  cbv beta. repeat split.
  - now step_with H.
  - exact (Hsent _ H).
  - step_with H.
    unfold bind at 1, lift, get_prop.
    destruct (nullish (default options (VObj []))) eqn:Hn.
    + destruct options; cbn in Hn, H0; discriminate.
    + now rewrite H0.
  - step_with H.
    unfold bind at 1, lift, get_prop.
    destruct (nullish (default options (VObj []))) eqn:Hn.
    + destruct options; cbn in Hn, H0; discriminate.
    + rewrite H0. unfold DBModel.findById.
      rewrite (findOne_request fetch m [("id", id)] s1 eq_refl).
      rewrite (Hsent _ H), <- app_assoc. reflexivity.
  - step_with H.
    unfold bind at 1, lift, get_prop.
    destruct H0 as [Hn| ->].
    + assert (nullish (default options (VObj [])) = false) as ->
        by (destruct options; cbn in Hn |- *; congruence).
      now rewrite H1.
    + reflexivity.
  - exact (Hsent _ H).
Qed.

(** Scenario C of the specification, over a transport that answers every
    request with the list holding the updated record. *)
Lemma X14_findByIdAndUpdate_refetches_on_demand_witness :
  let jo := VObj [("id", VNum 7); ("age", VNum 32)] in
  let fetch := Fixture.canned (Fixture.answer (envelope true (VArr [jo]) "")) in
  let fields :=
    VArr [VObj [("field_name", VStr "age"); ("field_value", VNum 32)]] in
  sent (snd (DBModel.findByIdAndUpdate fetch (VNum 7)
               (VObj [("age", VNum 32)]) (VObj [("new", VBool true)])
               Fixture.users Fixture.start))
  = [mkRequest "PATCH" "/api/v1/site-1/collections/users/records/7" None
       (DBConnection.headers Fixture.conn)
       (Some (JSON_stringify (VObj [("fields", fields)])));
     mkRequest "GET" "/api/v1/site-1/collections/users/records"
       (Some [("filters",
               JSON_stringify (VObj [("id", VObj [("$eq", VNum 7)])]));
              ("limit", AsIs (VNum 1))])
       (DBConnection.headers Fixture.conn) None]
  /\ DBModel.findByIdAndUpdate fetch (VNum 7) (VObj [("age", VNum 32)])
       VUndefined Fixture.users Fixture.start
     = (Normal (VArr [jo]),
        snd (DBConnection.updateById fetch Fixture.conn "users" (VNum 7)
               fields Fixture.start)).
Proof.
  intros jo fetch fields.
  pose (s1 :=
    snd (DBConnection.updateById fetch Fixture.conn "users" (VNum 7) fields
           Fixture.start)).
  split.
  - exact (proj2 (proj1 (proj2
      (X14_findByIdAndUpdate_refetches_on_demand fetch Fixture.users (VNum 7)
         (VObj [("age", VNum 32)]) fields (VObj [("new", VBool true)])
         Fixture.start s1 eq_refl eq_refl))
      (VArr [jo]) eq_refl eq_refl)).
  - exact (proj1 (proj2 (proj2
      (X14_findByIdAndUpdate_refetches_on_demand fetch Fixture.users (VNum 7)
         (VObj [("age", VNum 32)]) fields VUndefined
         Fixture.start s1 eq_refl eq_refl))
      (VArr [jo]) eq_refl (or_intror eq_refl) eq_refl)).
Defined.

(** ** Counting and existence *)

(** X15. [countDocuments] and [exists] send one GET on [records/count] and
    [records/exists] whose only search parameter is [filters], the filter
    object as the caller gave it: no member is wrapped as an equality, and
    the parameter is sent also when the object is empty or, for
    [countDocuments], omitted.  Over a success whose data is not null,
    they return the [count] and [exists] members of the data as they are,
    undefined when the data has no such member. *)
Theorem X15_count_and_exists_pass_filters_and_members {World : Type}
  (fetch : Request -> World -> completion Response * World)
  (m : DBModel.t) (filters data : value) (message : string)
  (s : State World) :
  sends (DBModel.countDocuments fetch filters m) s
    [mkRequest "GET"
       (DBConnection.records (DBModel.apiClient m) (DBModel.collectionName m)
        ++ "/count")
       (Some [("filters", JSON_stringify (default filters (VObj [])))])
       (DBConnection.headers (DBModel.apiClient m)) None]
  /\ sends (DBModel.exists_ fetch filters m) s
       [mkRequest "GET"
          (DBConnection.records (DBModel.apiClient m)
             (DBModel.collectionName m) ++ "/exists")
          (Some [("filters", JSON_stringify filters)])
          (DBConnection.headers (DBModel.apiClient m)) None]
  /\ (answers_with fetch (envelope true data message) ->
      nullish data = false ->
      fst (DBModel.countDocuments fetch filters m s)
      = Normal (prop data "count")
      /\ fst (DBModel.exists_ fetch filters m s)
         = Normal (prop data "exists")).
Proof.
  unfold sends, DBModel.countDocuments, DBModel.exists_. repeat split.
  - apply sends_bind_silent; [apply exchange_sent|silent].
  - apply sends_bind_silent; [apply exchange_sent|silent].
  - unfold_connection.
    match goal with
    | |- context [DBConnection.fetchFn _ ?r ?f] =>
        destruct (exchange_unwraps fetch r f s _ _ _ H) as [s' E]
    end.
    unfold bind. rewrite E. cbn [unwrapped]. unfold lift, get_prop.
    now rewrite H0.
  - unfold_connection.
    match goal with
    | |- context [DBConnection.fetchFn _ ?r ?f] =>
        destruct (exchange_unwraps fetch r f s _ _ _ H) as [s' E]
    end.
    unfold bind. rewrite E. cbn [unwrapped]. unfold lift, get_prop.
    now rewrite H0.
Qed.

Lemma X15_count_and_exists_pass_filters_and_members_witness :
  let fetch :=
    Fixture.canned
      (Fixture.answer (envelope true (VObj [("count", VNum 12)]) "")) in
  fst (DBModel.countDocuments fetch VUndefined Fixture.users Fixture.start)
  = Normal (VNum 12)
  /\ fst (DBModel.exists_ fetch (VObj [("age", VObj [("$gte", VNum 18)])])
            Fixture.users Fixture.start)
     = Normal VUndefined.
Proof.
  intros fetch. split.
  - exact (proj1 (proj2 (proj2
      (X15_count_and_exists_pass_filters_and_members fetch Fixture.users
         VUndefined (VObj [("count", VNum 12)]) "" Fixture.start))
      (canned_answers _) eq_refl)).
  - exact (proj2 (proj2 (proj2
      (X15_count_and_exists_pass_filters_and_members fetch Fixture.users
         (VObj [("age", VObj [("$gte", VNum 18)])])
         (VObj [("count", VNum 12)]) "" Fixture.start))
      (canned_answers _) eq_refl)).
Defined.

(** ** The builder: what a call leaves alone *)

Lemma own_set_lookup (k k' : string) (v : value) (o : obj) :
  assoc_get k' (own_set k v o)
  = if String.eqb k "__proto__" && negb (has_key k o) then assoc_get k' o
    else if String.eqb k' k then Some v else assoc_get k' o.
Proof.
  unfold own_set.
  destruct (String.eqb k "__proto__" && negb (has_key k o));
    [reflexivity|apply own_define_get].
Qed.

Lemma own_set_other (k k' : string) (v : value) (o : obj) :
  k' <> k -> assoc_get k' (own_set k v o) = assoc_get k' o.
Proof.
  intros Hne. rewrite own_set_lookup. apply String.eqb_neq in Hne as ->.
  now destruct (String.eqb k "__proto__" && negb (has_key k o)).
Qed.

Lemma own_set_swap (k1 k2 k : string) (v1 v2 : value) (o : obj) :
  k1 <> k2 ->
  assoc_get k (own_set k1 v1 (own_set k2 v2 o))
  = assoc_get k (own_set k2 v2 (own_set k1 v1 o)).
Proof.
  intros Hne.
  assert (has_key k1 (own_set k2 v2 o) = has_key k1 o) as H1
    by (unfold has_key; now rewrite own_set_other).
  assert (has_key k2 (own_set k1 v1 o) = has_key k2 o) as H2
    by (unfold has_key; rewrite own_set_other; congruence).
  rewrite (own_set_lookup k1 k v1 (own_set k2 v2 o)),
    (own_set_lookup k2 k v2 (own_set k1 v1 o)),
    (own_set_lookup k2 k v2 o), (own_set_lookup k1 k v1 o), H1, H2.
  destruct (String.eqb k1 "__proto__" && negb (has_key k1 o)),
    (String.eqb k2 "__proto__" && negb (has_key k2 o)); try reflexivity.
  destruct (String.eqb_spec k k1) as [->|Hk]; [|reflexivity].
  destruct (String.eqb_spec k1 k2) as [E|_]; [congruence|reflexivity].
Qed.

(** X16. A predicate-setting call on field [f] changes the predicate of [f]
    and nothing else: the predicate of every other field, the sort, the
    limit, the skip, the selection and the populate list are as before.
    Hence calls on two different fields may be made in either order: every
    field ends with the same predicate. *)
Theorem X16_a_setter_touches_only_its_field
  (f : string) (c : setter) (q : QueryBuilder.t) :
  (forall g, g <> f ->
     assoc_get g (QueryBuilder.filters (apply_setter f c q))
     = assoc_get g (QueryBuilder.filters q))
  /\ QueryBuilder.sortOptions (apply_setter f c q) = QueryBuilder.sortOptions q
  /\ QueryBuilder.limitValue (apply_setter f c q) = QueryBuilder.limitValue q
  /\ QueryBuilder.skipValue (apply_setter f c q) = QueryBuilder.skipValue q
  /\ QueryBuilder.selectFields (apply_setter f c q)
     = QueryBuilder.selectFields q
  /\ QueryBuilder.populateFields (apply_setter f c q)
     = QueryBuilder.populateFields q
  /\ (forall f' c' k, f' <> f ->
        assoc_get k
          (QueryBuilder.filters (apply_setter f c (apply_setter f' c' q)))
        = assoc_get k
            (QueryBuilder.filters (apply_setter f' c' (apply_setter f c q)))).
Proof.
  destruct (setter_assigns f c) as [p Hp]. rewrite !Hp.
  repeat split.
  - intros g Hg. rewrite filters_set_filter. now apply own_set_other.
  - intros f' c' k Hne. destruct (setter_assigns f' c') as [p' Hp'].
    rewrite !Hp', !Hp, !filters_set_filter.
    apply own_set_swap. congruence.
Qed.

Lemma X16_a_setter_touches_only_its_field_witness :
  assoc_get "age"
    (QueryBuilder.filters
       (QueryBuilder.like "email" (VStr "%@x.com") Fixture.scenario_B))
  = Some (VObj [("$lte", VNum 40)])
  /\ assoc_get "age"
       (QueryBuilder.filters
          (QueryBuilder.in_ "role" (VArr [VStr "admin"])
             (QueryBuilder.gt "age" (VNum 18) Fixture.fresh)))
     = assoc_get "age"
         (QueryBuilder.filters
            (QueryBuilder.gt "age" (VNum 18)
               (QueryBuilder.in_ "role" (VArr [VStr "admin"])
                  Fixture.fresh))).
Proof.
  split.
  - refine (eq_trans
      (proj1
         (X16_a_setter_touches_only_its_field "email"
            (Call_like (VStr "%@x.com")) Fixture.scenario_B) "age" _)
      eq_refl).
    discriminate.
  - apply (proj2 (proj2 (proj2 (proj2 (proj2 (proj2
      (X16_a_setter_touches_only_its_field "role"
         (Call_in (VArr [VStr "admin"])) Fixture.fresh))))))
      "age" (Call_gt (VNum 18)) "age").
    discriminate.
Defined.

(** X17. The fields of the filters stay distinct and in the order of an
    object's keys: the fields that are array indices first, by ascending
    number, then the others by the time of their first predicate.  A call
    on a field that has a predicate leaves the order as it is.  A call on
    a new field that is neither an array index nor [__proto__] puts it
    last; a call on a new field that is an array index puts it after the
    indices below it and before every other field. *)
Theorem X17_filter_fields_stay_distinct_and_ordered
  (f : string) (c : setter) (q : QueryBuilder.t) :
  own_order (map fst (QueryBuilder.filters q)) = true ->
  let keys := map fst (QueryBuilder.filters q) in
  let keys' := map fst (QueryBuilder.filters (apply_setter f c q)) in
  own_order keys' = true
  /\ NoDup keys'
  /\ (has_key f (QueryBuilder.filters q) = true -> keys' = keys)
  /\ (f <> "__proto__" -> has_key f (QueryBuilder.filters q) = false ->
      array_index f = None -> keys' = (keys ++ [f])%list)
  /\ (forall n, array_index f = Some n ->
      has_key f (QueryBuilder.filters q) = false ->
      exists smaller others,
        keys = (smaller ++ others)%list
        /\ keys' = (smaller ++ f :: others)%list
        /\ (forall a, In a smaller -> before a f = true)
        /\ (forall b, In b others -> before f b = true)).
Proof.
  intros Ho. destruct (setter_assigns f c) as [p Hp].
  cbv zeta. rewrite !Hp, !filters_set_filter.
  pose proof (own_set_order f p _ Ho) as Ho'.
  split; [exact Ho'|]. split; [now apply own_order_NoDup|].
  destruct (own_define_keys f p _ Ho) as (Hin & Hname & Hidx).
  unfold own_set. split; [|split].
  - intros Hk. rewrite Hk, andb_false_r. now apply Hin.
  - intros Hf Hk Hn. apply String.eqb_neq in Hf. rewrite Hf.
    cbn [andb]. rewrite (Hname Hk Hn), map_app. reflexivity.
  - intros n Hn Hk.
    assert (String.eqb f "__proto__" = false) as ->.
    { apply String.eqb_neq. intros ->. discriminate Hn. }
    cbn [andb].
    destruct (Hidx Hk n Hn) as (s & l & E & E' & Hs & Hl).
    exists (map fst s), (map fst l).
    rewrite E at 1. rewrite E', !map_app. cbn [map fst]. now repeat split.
Qed.

Lemma X17_filter_fields_stay_distinct_and_ordered_witness :
  let q2 :=
    QueryBuilder.eq "10" (VNum 1)
      (QueryBuilder.eq "name" (VStr "Jo") Fixture.fresh) in
  map fst (QueryBuilder.filters q2) = ["10"; "name"]
  /\ own_order (map fst (QueryBuilder.filters q2)) = true
  /\ map fst
       (QueryBuilder.filters (QueryBuilder.lt "age" (VNum 30) q2))
     = ["10"; "name"; "age"].
Proof.
  intros q2.
  pose (q1 := QueryBuilder.eq "name" (VStr "Jo") Fixture.fresh).
  pose proof
    (X17_filter_fields_stay_distinct_and_ordered "name" (Call_eq (VStr "Jo"))
       Fixture.fresh eq_refl) as (H1 & _).
  pose proof
    (X17_filter_fields_stay_distinct_and_ordered "10" (Call_eq (VNum 1))
       q1 H1) as (H2 & _).
  pose proof
    (X17_filter_fields_stay_distinct_and_ordered "age" (Call_lt (VNum 30))
       q2 H2) as (_ & _ & _ & Hlast & _).
  split; [reflexivity|]. split; [exact H2|].
  refine (Hlast _ eq_refl eq_refl). discriminate.
Defined.

(** X18. [sort], [limit], [skip] and [select] each keep only the argument
    of their last call, and the order in which these four and the
    predicate-setting calls are chained makes no difference to the builder
    they produce. *)
Theorem X18_replacing_calls_commute
  (a b : value) (f : string) (c : setter) (q : QueryBuilder.t) :
  (QueryBuilder.sort b (QueryBuilder.sort a q) = QueryBuilder.sort b q
   /\ QueryBuilder.limit b (QueryBuilder.limit a q) = QueryBuilder.limit b q
   /\ QueryBuilder.skip b (QueryBuilder.skip a q) = QueryBuilder.skip b q
   /\ QueryBuilder.select b (QueryBuilder.select a q)
      = QueryBuilder.select b q)
  /\ (QueryBuilder.sort a (QueryBuilder.limit b q)
      = QueryBuilder.limit b (QueryBuilder.sort a q)
      /\ QueryBuilder.sort a (QueryBuilder.skip b q)
         = QueryBuilder.skip b (QueryBuilder.sort a q)
      /\ QueryBuilder.sort a (QueryBuilder.select b q)
         = QueryBuilder.select b (QueryBuilder.sort a q)
      /\ QueryBuilder.limit a (QueryBuilder.skip b q)
         = QueryBuilder.skip b (QueryBuilder.limit a q)
      /\ QueryBuilder.limit a (QueryBuilder.select b q)
         = QueryBuilder.select b (QueryBuilder.limit a q)
      /\ QueryBuilder.skip a (QueryBuilder.select b q)
         = QueryBuilder.select b (QueryBuilder.skip a q))
  /\ (apply_setter f c (QueryBuilder.sort a q)
      = QueryBuilder.sort a (apply_setter f c q)
      /\ apply_setter f c (QueryBuilder.limit a q)
         = QueryBuilder.limit a (apply_setter f c q)
      /\ apply_setter f c (QueryBuilder.skip a q)
         = QueryBuilder.skip a (apply_setter f c q)
      /\ apply_setter f c (QueryBuilder.select a q)
         = QueryBuilder.select a (apply_setter f c q)).
Proof.
  destruct (setter_assigns f c) as [p Hp]. rewrite !Hp.
  repeat split.
Qed.

(** ** The builder: populate *)

Lemma populate_appends_directive (config : obj) (q : QueryBuilder.t) :
  QueryBuilder.populate (VObj config) q
  = Normal
      (QueryBuilder.mk (QueryBuilder.collectionName q)
         (QueryBuilder.apiClient q) (QueryBuilder.filters q)
         (QueryBuilder.sortOptions q) (QueryBuilder.limitValue q)
         (QueryBuilder.skipValue q) (QueryBuilder.selectFields q)
         (QueryBuilder.populateFields q ++ [directive (VObj config)])).
Proof. reflexivity. Qed.

(** X19. A chain of [populate] calls whose configurations are all plain
    objects appends one directive per call, in call order, after the
    directives the builder already had, and changes no other part of the
    builder; the directive of a call depends on its configuration alone.
    When such a chain goes on with a null or undefined configuration, that
    call raises a TypeError, whatever follows it. *)
Theorem X19_populate_accumulates_in_call_order
  (configs : list obj) (q : QueryBuilder.t) :
  populate_each (map VObj configs) q
  = Normal
      (QueryBuilder.mk (QueryBuilder.collectionName q)
         (QueryBuilder.apiClient q) (QueryBuilder.filters q)
         (QueryBuilder.sortOptions q) (QueryBuilder.limitValue q)
         (QueryBuilder.skipValue q) (QueryBuilder.selectFields q)
         (QueryBuilder.populateFields q
            ++ map directive (map VObj configs)))
  /\ (forall (config : value) (rest : list value),
        nullish config = true ->
        populate_each (map VObj configs ++ config :: rest) q
        = Throw TypeError).
Proof.
  split.
  - revert q. induction configs as [|config r IH]; intros q;
      cbn [populate_each map].
    + rewrite app_nil_r. now destruct q.
    + rewrite (populate_appends_directive config q). cbn [cbind].
      rewrite IH.
      cbn [QueryBuilder.populateFields QueryBuilder.filters
        QueryBuilder.collectionName QueryBuilder.apiClient
        QueryBuilder.sortOptions QueryBuilder.limitValue
        QueryBuilder.skipValue QueryBuilder.selectFields].
      now rewrite <- app_assoc.
  - intros bad rest Hbad. revert q.
    induction configs as [|config r IH]; intros q;
      cbn [populate_each map app].
    + unfold QueryBuilder.populate. now rewrite Hbad.
    + rewrite (populate_appends_directive config q). cbn [cbind].
      apply IH.
Qed.

Lemma X19_populate_accumulates_in_call_order_witness :
  let posts :=
    [("field", VStr "posts"); ("table", VStr "posts");
     ("referenceField", VStr "user_id")] in
  let comments :=
    [("field", VStr "comments"); ("table", VStr "comments");
     ("referenceField", VStr "user_id"); ("limit", VNum 10)] in
  (exists q,
      populate_each [VObj posts; VObj comments] Fixture.fresh = Normal q
      /\ map (fun d => prop d "field") (QueryBuilder.populateFields q)
         = [VStr "posts"; VStr "comments"])
  /\ populate_each [VObj posts; VUndefined; VObj comments] Fixture.fresh
     = Throw TypeError.
Proof.
  intros posts comments. split.
  - eexists. split.
    + exact (proj1
        (X19_populate_accumulates_in_call_order [posts; comments]
           Fixture.fresh)).
    + reflexivity.
  - exact (proj2
      (X19_populate_accumulates_in_call_order [posts] Fixture.fresh)
      VUndefined [VObj comments] eq_refl).
Defined.

(** X20. The directive of a configuration object has exactly the members
    [field], [table], [referenceField], [select], [where], [sort],
    [limit], [skip], [justOne], in this order, whatever else the
    configuration holds.  The three first are read as they are; each of the
    others is the member of the configuration unless that is undefined, in
    which case it is the empty string for [select], [where] and [sort],
    null for [limit], [0] for [skip] and [false] for [justOne].  A member
    given as null stays null. *)
Theorem X20_populate_fills_undefined_members (o : obj) :
  own_keys (directive (VObj o))
  = ["field"; "table"; "referenceField"; "select"; "where"; "sort";
     "limit"; "skip"; "justOne"]
  /\ (forall k, In k ["field"; "table"; "referenceField"] ->
        prop (directive (VObj o)) k = prop (VObj o) k)
  /\ (forall k d,
        In (k, d)
          [("select", VStr ""); ("where", VStr ""); ("sort", VStr "");
           ("limit", VNull); ("skip", VNum 0); ("justOne", VBool false)] ->
        prop (directive (VObj o)) k = default (prop (VObj o) k) d).
Proof.
  split; [reflexivity|]. split.
  - intros k [<-|[<-|[<-|[]]]]; reflexivity.
  - intros k d [E|[E|[E|[E|[E|[E|[]]]]]]]; injection E as <- <-; reflexivity.
Qed.

Lemma X20_populate_fills_undefined_members_witness :
  let config :=
    [("field", VStr "posts"); ("table", VStr "posts");
     ("referenceField", VStr "user_id"); ("select", VNull);
     ("cache", VBool true)] in
  prop (directive (VObj config)) "select" = VNull
  /\ prop (directive (VObj config)) "skip" = VNum 0
  /\ prop (directive (VObj config)) "cache" = VUndefined
  /\ prop (directive (VObj config)) "table" = VStr "posts".
Proof.
  intros config.
  pose proof (X20_populate_fills_undefined_members config)
    as (_ & Hreq & Hopt).
  split; [|split; [|split]].
  - exact (Hopt "select" (VStr "") (or_introl eq_refl)).
  - refine (Hopt "skip" (VNum 0) _). cbn. tauto.
  - reflexivity.
  - refine (Hreq "table" _). cbn. tauto.
Defined.

(** ** What a query puts on the wire *)

(** X21. The search parameters of a query are, in this order and each at
    most once: [filters] when the builder has a predicate, [sort] when the
    sort value is truthy and has a key of its own, [limit], [skip] and
    [select] when their value is truthy, [populate] when a directive was
    added; nothing else is sent.  Filters, sort, select and populate are
    the JSON text of the builder's value; limit and skip are the value
    itself. *)
Theorem X21_the_parts_of_a_query (q : QueryBuilder.t) :
  assoc_get "filters" (serialize q)
  = (if (0 <? List.length (QueryBuilder.filters q))%nat
     then Some (JSON_stringify (VObj (QueryBuilder.filters q))) else None)
  /\ assoc_get "sort" (serialize q)
     = (if truthy (QueryBuilder.sortOptions q)
           && (0 <? List.length (own_keys (QueryBuilder.sortOptions q)))%nat
        then Some (JSON_stringify (QueryBuilder.sortOptions q)) else None)
  /\ assoc_get "limit" (serialize q)
     = (if truthy (QueryBuilder.limitValue q)
        then Some (AsIs (QueryBuilder.limitValue q)) else None)
  /\ assoc_get "skip" (serialize q)
     = (if truthy (QueryBuilder.skipValue q)
        then Some (AsIs (QueryBuilder.skipValue q)) else None)
  /\ assoc_get "select" (serialize q)
     = (if truthy (QueryBuilder.selectFields q)
        then Some (JSON_stringify (QueryBuilder.selectFields q)) else None)
  /\ assoc_get "populate" (serialize q)
     = (if (0 <? List.length (QueryBuilder.populateFields q))%nat
        then Some (JSON_stringify (VArr (QueryBuilder.populateFields q)))
        else None)
  /\ map fst (serialize q)
     = filter (fun k => has_key k (serialize q))
         ["filters"; "sort"; "limit"; "skip"; "select"; "populate"].
Proof.
  rewrite serialize_entries. unfold has_key.
  split_entries; repeat split.
Qed.

(** X22. Edge cases of the elision.  A selection that is the empty string
    is not sent, while an array is sent even when it is empty.  A sort that
    is null or an object without members is not sent; an object with
    members is sent as it was given, its members in their order.  A limit
    or a skip that is negative is sent as it is. *)
Theorem X22_elision_follows_truthiness (q : QueryBuilder.t) :
  has_key "select" (serialize (QueryBuilder.select (VStr "") q)) = false
  /\ (forall fields : list value,
        assoc_get "select" (serialize (QueryBuilder.select (VArr fields) q))
        = Some (JSON_stringify (VArr fields)))
  /\ has_key "sort" (serialize (QueryBuilder.sort VNull q)) = false
  /\ has_key "sort" (serialize (QueryBuilder.sort (VObj []) q)) = false
  /\ (forall (first : string * value) (others : obj),
        assoc_get "sort"
          (serialize (QueryBuilder.sort (VObj (first :: others)) q))
        = Some (JSON_stringify (VObj (first :: others))))
  /\ (forall n : Z, (n < 0)%Z ->
        assoc_get "limit" (serialize (QueryBuilder.limit (VNum n) q))
        = Some (AsIs (VNum n))
        /\ assoc_get "skip" (serialize (QueryBuilder.skip (VNum n) q))
           = Some (AsIs (VNum n))).
Proof.
  repeat split.
  - now rewrite serialize_entries; unfold has_key; split_entries.
  - intros fields. rewrite serialize_entries.
    cbn [QueryBuilder.select QueryBuilder.selectFields truthy].
    split_entries; reflexivity.
  - now rewrite serialize_entries; unfold has_key; split_entries.
  - now rewrite serialize_entries; unfold has_key; split_entries.
  - intros first others. rewrite serialize_entries.
    cbn [QueryBuilder.sort QueryBuilder.sortOptions truthy own_keys map
         List.length Nat.ltb Nat.leb andb].
    split_entries; reflexivity.
  - apply serialize_get_limit. cbn. apply negb_true_iff, Z.eqb_neq. lia.
  - apply serialize_get_skip. cbn. apply negb_true_iff, Z.eqb_neq. lia.
Qed.

Lemma X22_elision_follows_truthiness_witness :
  assoc_get "limit" (serialize (QueryBuilder.limit (VNum (-1)) Fixture.fresh))
  = Some (AsIs (VNum (-1))).
Proof.
  refine (proj1
    (proj2 (proj2 (proj2 (proj2 (proj2
       (X22_elision_follows_truthiness Fixture.fresh))))) (-1)%Z _)).
  reflexivity.
Defined.

(** ** Building a connection *)

Lemma or_string_given (s b : string) :
  (s =? "") = false -> DBConnection.or_string (Some s) b = s.
Proof. intros H. unfold DBConnection.or_string. now rewrite H. Qed.

(** X23. The site identifier of a connection is the one of the
    configuration when that is a non-empty string, whatever the page says;
    otherwise it is the [x:id] attribute of the page, and the empty string
    when there is no page, no attribute or an empty one.  The base URL is
    the one of the configuration when that is a non-empty string, and
    [/api/v1/] followed by the site identifier otherwise.  Constructing
    without an argument is constructing with an empty configuration. *)
Theorem X23_site_and_base_of_a_connection
  (document : option (option string)) (config : DBConnection.Config) :
  let c := DBConnection.constructor document (Some config) in
  (forall id,
      DBConnection.config_siteId config = Some id -> (id =? "") = false ->
      DBConnection.siteId c = id)
  /\ (DBConnection.config_siteId config = None
      \/ DBConnection.config_siteId config = Some "" ->
      (forall id,
          document = Some (Some id) -> (id =? "") = false ->
          DBConnection.siteId c = id)
      /\ (document = None \/ document = Some None
          \/ document = Some (Some "") ->
          DBConnection.siteId c = ""))
  /\ (forall base,
        DBConnection.config_baseURL config = Some base ->
        (base =? "") = false ->
        DBConnection.baseURL c = base)
  /\ (DBConnection.config_baseURL config = None
      \/ DBConnection.config_baseURL config = Some "" ->
      DBConnection.baseURL c = "/api/v1/" ++ DBConnection.siteId c)
  /\ DBConnection.constructor document None
     = DBConnection.constructor document
         (Some (DBConnection.mkConfig None None None None)).
Proof.
  destruct config as [base site token hs].
  cbn [DBConnection.constructor DBConnection.siteId DBConnection.baseURL
       DBConnection.config_siteId DBConnection.config_baseURL].
  split; [|split; [|split; [|split]]].
  - intros id -> Hid. now apply or_string_given.
  - intros Hsite. split.
    + intros id -> Hid. destruct Hsite as [->| ->]; cbn; now rewrite Hid.
    + intros Hdoc.
      destruct Hsite as [->| ->]; destruct Hdoc as [->|[->| ->]];
        reflexivity.
  - intros b -> Hb. now apply or_string_given.
  - intros Hbase. destruct Hbase as [->| ->]; reflexivity.
  - reflexivity.
Qed.

Lemma X23_site_and_base_of_a_connection_witness :
  DBConnection.siteId
    (DBConnection.constructor (Some (Some "page-site"))
       (Some (DBConnection.mkConfig None (Some "my-site") None None)))
  = "my-site"
  /\ DBConnection.baseURL
       (DBConnection.constructor (Some (Some "page-site"))
          (Some (DBConnection.mkConfig (Some "") (Some "") None None)))
     = "/api/v1/page-site"
  /\ DBConnection.baseURL
       (DBConnection.constructor None
          (Some (DBConnection.mkConfig (Some "https://db.example/v2")
                   (Some "my-site") None None)))
     = "https://db.example/v2".
Proof.
  split; [|split].
  - exact (proj1
      (X23_site_and_base_of_a_connection (Some (Some "page-site"))
         (DBConnection.mkConfig None (Some "my-site") None None))
      "my-site" eq_refl eq_refl).
  - pose proof
      (X23_site_and_base_of_a_connection (Some (Some "page-site"))
         (DBConnection.mkConfig (Some "") (Some "") None None))
      as (_ & Hsite & _ & Hbase & _).
    rewrite (Hbase (or_intror eq_refl)).
    now rewrite (proj1 (Hsite (or_intror eq_refl)) "page-site" eq_refl
                   eq_refl).
  - exact (proj1 (proj2 (proj2
      (X23_site_and_base_of_a_connection None
         (DBConnection.mkConfig (Some "https://db.example/v2")
            (Some "my-site") None None))))
      "https://db.example/v2" eq_refl eq_refl).
Defined.

Lemma spread_other (k : string) (members defaults : obj) :
  has_key k members = false ->
  assoc_get k (DBConnection.spread defaults (Some members))
  = assoc_get k defaults.
Proof.
  unfold DBConnection.spread. revert defaults.
  induction members as [|[k0 v0] r IH]; intros defaults Hk;
    cbn [fold_left fst snd]; [reflexivity|].
  unfold has_key in Hk. cbn [assoc_get] in Hk.
  destruct (String.eqb_spec k k0) as [->|Hne]; [discriminate|].
  rewrite IH by exact Hk. rewrite own_define_get.
  now apply String.eqb_neq in Hne as ->.
Qed.

Lemma spread_member (k : string) (v : value) (members defaults : obj) :
  NoDup (map fst members) -> In (k, v) members ->
  assoc_get k (DBConnection.spread defaults (Some members)) = Some v.
Proof.
  unfold DBConnection.spread. revert defaults.
  induction members as [|[k0 v0] r IH]; intros defaults Hnd Hin;
    cbn [fold_left fst snd]; [contradiction|].
  inversion Hnd as [|? ? Hk0 Hr]; subst. destruct Hin as [E|Hin].
  - injection E as -> ->.
    pose proof (spread_other k r (own_define k v defaults)) as Ho.
    unfold DBConnection.spread in Ho. rewrite Ho.
    + now rewrite own_define_get, String.eqb_refl.
    + now apply has_key_false.
  - now apply IH.
Qed.

(** X24. Without headers in the configuration a connection has exactly two
    headers: [Content-Type: application/json] and [Authorization], which
    is [Bearer] and the token when the configuration has a non-empty
    token and the empty string otherwise.  A header of the configuration
    replaces the default of the same name, [Authorization] included, and
    every header of the configuration is a header of the connection; the
    defaults the configuration does not name are kept. *)
Theorem X24_headers_of_a_connection
  (document : option (option string))
  (base site token : option string) :
  let authorization :=
    match token with
    | Some t => if t =? "" then "" else "Bearer " ++ t
    | None => ""
    end in
  let defaults :=
    [("Content-Type", VStr "application/json");
     ("Authorization", VStr authorization)] in
  DBConnection.headers
    (DBConnection.constructor document
       (Some (DBConnection.mkConfig base site token None)))
  = defaults
  /\ (forall custom : obj,
        distinct (map fst custom) = true ->
        let c :=
          DBConnection.constructor document
            (Some (DBConnection.mkConfig base site token (Some custom))) in
        (forall k v, In (k, v) custom ->
           assoc_get k (DBConnection.headers c) = Some v)
        /\ (forall k, has_key k custom = false ->
              assoc_get k (DBConnection.headers c) = assoc_get k defaults)).
Proof.
  cbv zeta. split; [reflexivity|].
  intros custom Hd. apply distinct_NoDup in Hd.
  cbn [DBConnection.constructor DBConnection.headers
       DBConnection.config_headers DBConnection.config_token]. split.
  - intros k v Hin. now apply spread_member.
  - intros k Hk. now apply spread_other.
Qed.

Lemma X24_headers_of_a_connection_witness :
  let c :=
    DBConnection.constructor None
      (Some (DBConnection.mkConfig None (Some "my-site") (Some "secret")
               (Some [("Authorization", VStr "Basic abc");
                      ("X-Trace", VStr "1")]))) in
  assoc_get "Authorization" (DBConnection.headers c) = Some (VStr "Basic abc")
  /\ assoc_get "Content-Type" (DBConnection.headers c)
     = Some (VStr "application/json").
Proof.
  intros c.
  pose proof
    (proj2 (X24_headers_of_a_connection None None (Some "my-site")
              (Some "secret"))
       [("Authorization", VStr "Basic abc"); ("X-Trace", VStr "1")] eq_refl)
    as [Hin Hout].
  split.
  - apply Hin. left. reflexivity.
  - exact (Hout "Content-Type" eq_refl).
Defined.

(** X25. A query made through a connection built on a page, without
    configuration, goes to [/api/v1/<site>/collections/<name>/records],
    where [<site>] is the [x:id] attribute of the page, with the two
    default headers and an empty [Authorization]. *)
Theorem X25_from_the_page_to_the_wire {World : Type}
  (fetch : Request -> World -> completion Response * World)
  (site name : string) (s : State World) :
  (site =? "") = false ->
  let users := model (DBConnection.constructor (Some (Some site)) None) name in
  exists q,
    DBModel.find VUndefined users = Normal q
    /\ sends (QueryBuilder.exec fetch q) s
         [mkRequest "GET"
            (("/api/v1/" ++ site) ++ "/collections/" ++ name ++ "/records")
            (Some [])
            [("Content-Type", VStr "application/json");
             ("Authorization", VStr "")]
            None].
Proof.
  intros Hs users. eexists. split; [reflexivity|].
  unfold sends, QueryBuilder.exec, DBConnection.query.
  rewrite exchange_sent. cbn. now rewrite Hs.
Qed.

Lemma X25_from_the_page_to_the_wire_witness :
  sent (snd (QueryBuilder.exec
               (Fixture.canned (Fixture.answer (envelope true (VArr []) "")))
               (QueryBuilder.new "users"
                  (DBConnection.constructor (Some (Some "shop-9")) None))
               Fixture.start))
  = [mkRequest "GET" "/api/v1/shop-9/collections/users/records" (Some [])
       [("Content-Type", VStr "application/json"); ("Authorization", VStr "")]
       None].
Proof.
  destruct
    (X25_from_the_page_to_the_wire
       (Fixture.canned (Fixture.answer (envelope true (VArr []) "")))
       "shop-9" "users" Fixture.start eq_refl) as (q & Hq & Hsends).
  injection Hq as <-. exact Hsends.
Defined.

(** ** The arity of where *)

(** X26. [where] looks only at the number of its arguments.  With three
    or more, the second is the tag and the third the value, and the
    arguments that follow are ignored; with the field alone, the tag and
    the value are both undefined, as in
    [where(field, 'undefined', undefined)].  On a field other than
    [__proto__], a three-argument call whose tag is a string builds what
    [eq] builds exactly when the tag is spelled [$eq]. *)
Theorem X26_where_counts_its_arguments
  (field : string) (q : QueryBuilder.t) :
  field <> "__proto__" ->
  (forall (tag : string) (v : value),
      QueryBuilder.where_ field [VStr tag; v] q = QueryBuilder.eq field v q
      <-> tag = "$eq")
  /\ (forall (tag : string) (v : value) (more : list value),
        QueryBuilder.where_ field (VStr tag :: v :: more) q
        = QueryBuilder.where_ field [VStr tag; v] q)
  /\ QueryBuilder.where_ field [] q
     = QueryBuilder.where_ field [VStr "undefined"; VUndefined] q.
Proof.
  intros Hf. apply String.eqb_neq in Hf. split; [|split].
  - intros tag v. split; [|now intros ->].
    intros E.
    apply (f_equal (fun b => assoc_get field (QueryBuilder.filters b))) in E.
    unfold QueryBuilder.where_, QueryBuilder.eq in E.
    cbn [List.length Nat.add Nat.eqb nth ToString] in E.
    rewrite !filters_set_filter, !own_set_get, !String.eqb_refl in E
      by exact Hf.
    congruence.
  - reflexivity.
  - reflexivity.
Qed.

Lemma X26_where_counts_its_arguments_witness :
  QueryBuilder.where_ "age" [VStr "eq"; VNum 25] Fixture.fresh
  <> QueryBuilder.eq "age" (VNum 25) Fixture.fresh
  /\ QueryBuilder.where_ "age" [VStr "$gt"; VNum 25; VNum 1] Fixture.fresh
     = QueryBuilder.gt "age" (VNum 25) Fixture.fresh.
Proof.
  assert ("age" <> "__proto__") as Hne by discriminate.
  pose proof (X26_where_counts_its_arguments "age" Fixture.fresh Hne)
    as (Hiff & Hmore & _).
  split.
  - intros E. apply Hiff in E. discriminate E.
  - rewrite Hmore. reflexivity.
Defined.
